(** * clara: the C front end (clara/c_parser.py)

    A shallow embedding of [CParser], the visitor that turns a pycparser
    syntax tree into clara's location/transition model, and the properties
    of its expression, statement and I/O builders.

    The visitor is written in a state-and-exception monad: the Python
    object's attributes ([self.loc], [self.postincdec], [self.inswitch],
    ...) and the program being built are fields of [state]; a raised
    exception is [Err].  Dynamic dispatch ([self.visit]) is open
    recursion: every [visit_X] takes the dispatcher as an argument, and
    [visit] ties the knot with fuel. *)

From stdpp Require Import gmap strings list.

Set Warnings "-register-all".

Open Scope list_scope.

(** ** Python values *)

(** Modelled from the spec: model.py ([Var], [Const], [Op]) is not part of
    the sources.  An expression is a variable, a constant or an operation
    over an ordered list of arguments, each carrying an optional line.
    The visitor is dynamically typed, so expressions live in one type with
    the other values a visit method returns: [None], strings (type
    names), lists (expression lists) and tuples (declarators). *)
Inductive val : Type :=
| PyNone
| PyStr (s : string)
| PyList (l : list val)
| PyTuple (l : list val)
| Var (name : string) (ln : option nat)
| Const (value : string) (ln : option nat)
| Op (name : string) (args : list val) (ln : option nat).

Definition VAR_IN : string := "$in".
Definition VAR_OUT : string := "$out".
Definition VAR_RET : string := "$ret".

(** [isinstance(v, Var)], [isinstance(v, Op)], ... *)
Definition is_Var (v : val) : bool :=
  match v with Var _ _ => true | _ => false end.
Definition is_Const (v : val) : bool :=
  match v with Const _ _ => true | _ => false end.
Definition is_Op (v : val) : bool :=
  match v with Op _ _ _ => true | _ => false end.
Definition is_list (v : val) : bool :=
  match v with PyList _ => true | _ => false end.

(** Python truthiness: [None], the empty string, list and tuple are false;
    expression objects are true. *)
Definition truthy (v : val) : bool :=
  match v with
  | PyNone => false
  | PyStr s => negb (String.eqb s EmptyString)
  | PyList l | PyTuple l => match l with [] => false | _ => true end
  | _ => true
  end.

(** ** The syntax tree (pycparser's c_ast, the node kinds the parser visits) *)

Inductive node : Type :=
| FileAST (ext : list node) (ln : nat)
| FuncDef (decl : node) (body : node) (ln : nat)
| FuncDecl (args : option (list node)) (type : node) (ln : nat)
| Decl (type : node) (init : option node) (ln : nat)
| ArrayDecl (type : node) (dim : option node) (ln : nat)
| DeclList (decls : list node) (ln : nat)
| TypeDecl (declname : option string) (type : node) (ln : nat)
| IdentifierType (names : list string) (ln : nat)
| Typename (type : node) (ln : nat)
| Compound (block_items : option (list node)) (ln : nat)
| Assignment (op : string) (lvalue rvalue : node) (ln : nat)
| EmptyStatement (ln : nat)
| ID (name : string) (ln : nat)
| InitList (exprs : option (list node)) (ln : nat)
| BinaryOp (op : string) (left right : node) (ln : nat)
| UnaryOp (op : string) (expr : node) (ln : nat)
| ArrayRef (name subscript : node) (ln : nat)
| Constant (type value : string) (ln : nat)
| Cast (to_type expr : node) (ln : nat)
| TernaryOp (cond iftrue iffalse : node) (ln : nat)
| Switch (cond stmt : node) (ln : nat)
| Case (expr : node) (stmts : list node) (ln : nat)
| Default (stmts : list node) (ln : nat)
| FuncCall (name : node) (args : option node) (ln : nat)
| ExprList (exprs : list node) (ln : nat)
| If (cond : node) (iftrue : node) (iffalse : option node) (ln : nat)
| While (cond stmt : node) (ln : nat)
| DoWhile (cond stmt : node) (ln : nat)
| For (init cond next : option node) (stmt : node) (ln : nat)
| Return (expr : option node) (ln : nat)
| Break (ln : nat)
| Continue (ln : nat)
| Label (name : string) (stmt : node) (ln : nat)
| Goto (name : string) (ln : nat).

(** [node.coord.line] *)
Definition coord_line (n : node) : nat :=
  match n with
  | FileAST _ l | FuncDef _ _ l | FuncDecl _ _ l | Decl _ _ l
  | ArrayDecl _ _ l | DeclList _ l | TypeDecl _ _ l | IdentifierType _ l
  | Typename _ l | Compound _ l | Assignment _ _ _ l | EmptyStatement l
  | ID _ l | InitList _ l | BinaryOp _ _ _ l | UnaryOp _ _ l
  | ArrayRef _ _ l | Constant _ _ l | Cast _ _ l | TernaryOp _ _ _ l
  | Switch _ _ l | Case _ _ l | Default _ l | FuncCall _ _ l
  | ExprList _ l | If _ _ _ l | While _ _ l | DoWhile _ _ l
  | For _ _ _ _ l | Return _ l | Break l | Continue l | Label _ _ l
  | Goto _ l => l
  end.

(** ** Parser state *)

Definition loc := positive.

(** The guard of a transition: unconditional, or a condition and the
    branch taken on it. *)
Inductive guard : Type :=
| GTrue
| GCond (c : val)
| GNotCond (c : val).

(** A scheduled update: the variable and the expression assigned to it. *)
Definition update : Type := string * val.

Record state : Type := mkState {
  st_loc : loc;                          (* self.loc *)
  st_nextloc : loc;                      (* next fresh location *)
  st_locdescs : list (loc * (string * nat)); (* descriptions of locations *)
  st_exprs : gmap loc (list update);     (* updates scheduled per location *)
  st_trans : list (loc * guard * loc);    (* transitions *)
  st_loops : list (loc * loc * option loc); (* loop stack, innermost first *)
  st_postincdec : nat;                   (* self.postincdec *)
  st_inswitch : bool;                    (* self.inswitch *)
  st_fncdef : bool;                      (* self.fncdef *)
  st_nobcs : bool;                       (* self.nobcs *)
  st_hasbcs : bool;                      (* self.hasbcs *)
  st_fnc : string;                       (* scope of the function being built *)
  st_fncs : list (string * list val * val); (* registered functions *)
  st_types : gmap (string * string) val; (* type registry, per scope *)
  st_warns : list (string * option nat); (* warnings *)
  st_linemap : list (nat * string)       (* line -> scope path records *)
}.

(** Field updates ([self.x = v]). *)
Definition set_loc (v : loc) (s : state) : state :=
  mkState v (st_nextloc s) (st_locdescs s) (st_exprs s) (st_trans s) (st_loops s) (st_postincdec s) (st_inswitch s) (st_fncdef s) (st_nobcs s) (st_hasbcs s) (st_fnc s) (st_fncs s) (st_types s) (st_warns s) (st_linemap s).
Definition set_nextloc (v : loc) (s : state) : state :=
  mkState (st_loc s) v (st_locdescs s) (st_exprs s) (st_trans s) (st_loops s) (st_postincdec s) (st_inswitch s) (st_fncdef s) (st_nobcs s) (st_hasbcs s) (st_fnc s) (st_fncs s) (st_types s) (st_warns s) (st_linemap s).
Definition set_locdescs (v : list (loc * (string * nat))) (s : state) : state :=
  mkState (st_loc s) (st_nextloc s) v (st_exprs s) (st_trans s) (st_loops s) (st_postincdec s) (st_inswitch s) (st_fncdef s) (st_nobcs s) (st_hasbcs s) (st_fnc s) (st_fncs s) (st_types s) (st_warns s) (st_linemap s).
Definition set_exprs (v : gmap loc (list update)) (s : state) : state :=
  mkState (st_loc s) (st_nextloc s) (st_locdescs s) v (st_trans s) (st_loops s) (st_postincdec s) (st_inswitch s) (st_fncdef s) (st_nobcs s) (st_hasbcs s) (st_fnc s) (st_fncs s) (st_types s) (st_warns s) (st_linemap s).
Definition set_trans (v : list (loc * guard * loc)) (s : state) : state :=
  mkState (st_loc s) (st_nextloc s) (st_locdescs s) (st_exprs s) v (st_loops s) (st_postincdec s) (st_inswitch s) (st_fncdef s) (st_nobcs s) (st_hasbcs s) (st_fnc s) (st_fncs s) (st_types s) (st_warns s) (st_linemap s).
Definition set_loops (v : list (loc * loc * option loc)) (s : state) : state :=
  mkState (st_loc s) (st_nextloc s) (st_locdescs s) (st_exprs s) (st_trans s) v (st_postincdec s) (st_inswitch s) (st_fncdef s) (st_nobcs s) (st_hasbcs s) (st_fnc s) (st_fncs s) (st_types s) (st_warns s) (st_linemap s).
Definition set_postincdec (v : nat) (s : state) : state :=
  mkState (st_loc s) (st_nextloc s) (st_locdescs s) (st_exprs s) (st_trans s) (st_loops s) v (st_inswitch s) (st_fncdef s) (st_nobcs s) (st_hasbcs s) (st_fnc s) (st_fncs s) (st_types s) (st_warns s) (st_linemap s).
Definition set_inswitch (v : bool) (s : state) : state :=
  mkState (st_loc s) (st_nextloc s) (st_locdescs s) (st_exprs s) (st_trans s) (st_loops s) (st_postincdec s) v (st_fncdef s) (st_nobcs s) (st_hasbcs s) (st_fnc s) (st_fncs s) (st_types s) (st_warns s) (st_linemap s).
Definition set_fncdef (v : bool) (s : state) : state :=
  mkState (st_loc s) (st_nextloc s) (st_locdescs s) (st_exprs s) (st_trans s) (st_loops s) (st_postincdec s) (st_inswitch s) v (st_nobcs s) (st_hasbcs s) (st_fnc s) (st_fncs s) (st_types s) (st_warns s) (st_linemap s).
Definition set_nobcs (v : bool) (s : state) : state :=
  mkState (st_loc s) (st_nextloc s) (st_locdescs s) (st_exprs s) (st_trans s) (st_loops s) (st_postincdec s) (st_inswitch s) (st_fncdef s) v (st_hasbcs s) (st_fnc s) (st_fncs s) (st_types s) (st_warns s) (st_linemap s).
Definition set_hasbcs (v : bool) (s : state) : state :=
  mkState (st_loc s) (st_nextloc s) (st_locdescs s) (st_exprs s) (st_trans s) (st_loops s) (st_postincdec s) (st_inswitch s) (st_fncdef s) (st_nobcs s) v (st_fnc s) (st_fncs s) (st_types s) (st_warns s) (st_linemap s).
Definition set_fnc (v : string) (s : state) : state :=
  mkState (st_loc s) (st_nextloc s) (st_locdescs s) (st_exprs s) (st_trans s) (st_loops s) (st_postincdec s) (st_inswitch s) (st_fncdef s) (st_nobcs s) (st_hasbcs s) v (st_fncs s) (st_types s) (st_warns s) (st_linemap s).
Definition set_fncs (v : list (string * list val * val)) (s : state) : state :=
  mkState (st_loc s) (st_nextloc s) (st_locdescs s) (st_exprs s) (st_trans s) (st_loops s) (st_postincdec s) (st_inswitch s) (st_fncdef s) (st_nobcs s) (st_hasbcs s) (st_fnc s) v (st_types s) (st_warns s) (st_linemap s).
Definition set_types (v : gmap (string * string) val) (s : state) : state :=
  mkState (st_loc s) (st_nextloc s) (st_locdescs s) (st_exprs s) (st_trans s) (st_loops s) (st_postincdec s) (st_inswitch s) (st_fncdef s) (st_nobcs s) (st_hasbcs s) (st_fnc s) (st_fncs s) v (st_warns s) (st_linemap s).
Definition set_warns (v : list (string * option nat)) (s : state) : state :=
  mkState (st_loc s) (st_nextloc s) (st_locdescs s) (st_exprs s) (st_trans s) (st_loops s) (st_postincdec s) (st_inswitch s) (st_fncdef s) (st_nobcs s) (st_hasbcs s) (st_fnc s) (st_fncs s) (st_types s) v (st_linemap s).
Definition set_linemap (v : list (nat * string)) (s : state) : state :=
  mkState (st_loc s) (st_nextloc s) (st_locdescs s) (st_exprs s) (st_trans s) (st_loops s) (st_postincdec s) (st_inswitch s) (st_fncdef s) (st_nobcs s) (st_hasbcs s) (st_fnc s) (st_fncs s) (st_types s) (st_warns s) v.

(** ** Exceptions and the visitor monad *)

(** [NotSupported] keeps the message template, the values interpolated
    into it and the line it carries. *)
Inductive error : Type :=
| NotSupported (msg : string) (args : list val) (ln : option nat)
| ParseError (msg : string)
| PyError (kind : string)
| OutOfFuel.

Inductive result (A : Type) : Type :=
| Ok (a : A) (s : state)
| Err (e : error).
Arguments Ok {A} a s.
Arguments Err {A} e.

Definition M (A : Type) : Type := state -> result A.

Definition ret {A} (a : A) : M A := fun s => Ok a s.
Definition bind {A B} (c : M A) (k : A -> M B) : M B :=
  fun s => match c s with Ok a s' => k a s' | Err e => Err e end.
Definition raise {A} (e : error) : M A := fun _ => Err e.
Definition gets {A} (f : state -> A) : M A := fun s => Ok (f s) s.
Definition modify (f : state -> state) : M unit := fun s => Ok tt (f s).

Notation "x <- c ;; k" := (bind c (fun x => k))
  (at level 100, c at next level, right associativity).
Notation "c ;; k" := (bind c (fun _ => k))
  (at level 100, right associativity).

(** [for x in l: body x] *)
Fixpoint forM {A} (l : list A) (body : A -> M unit) : M unit :=
  match l with
  | [] => ret tt
  | x :: l' => body x ;; forM l' body
  end.

(** [list(map(f, l))] for an effectful [f] *)
Fixpoint mapM {A B} (f : A -> M B) (l : list A) : M (list B) :=
  match l with
  | [] => ret []
  | x :: l' => y <- f x ;; ys <- mapM f l' ;; ret (y :: ys)
  end.

(** ** Strings *)

(** The characters of a string, each as a one-character string (what
    iterating over a Python [str] yields). *)
Fixpoint chars (s : string) : list string :=
  match s with
  | EmptyString => []
  | String c s' => String c EmptyString :: chars s'
  end.

(** [s.replace(old, new)] for a non-empty [old]: non-overlapping
    occurrences, left to right.  [skip] counts the characters of the
    occurrence just replaced that are still to be dropped. *)
Fixpoint replace_aux (old new : string) (skip : nat) (s : string) : string :=
  match s with
  | EmptyString => EmptyString
  | String c s' =>
      match skip with
      | S k => replace_aux old new k s'
      | O =>
          if String.prefix old s
          then new +:+ replace_aux old new (String.length old - 1) s'
          else String c (replace_aux old new 0 s')
      end
  end.
Definition replace (old new s : string) : string := replace_aux old new 0 s.

(** The one-character string of a double quote. *)
Definition dquote : string := String (Ascii.ascii_of_nat 34) EmptyString.

(** [s[0]] and [s[-1]] as one-character strings; [s[1:-1]] *)
Definition str_first (s : string) : option string :=
  match s with EmptyString => None | String c _ => Some (String c EmptyString) end.
Definition str_last (s : string) : option string := last (chars s).
Definition str_strip_ends (s : string) : string :=
  String.substring 1 (String.length s - 2) s.

(** The alternatives of the conversion-specifier pattern of [visit_scanf],
    [(%((d)|(i)|(li)|(lli)|(ld)|(lld)|(lf)|(f)|(s)|(c)))], in order. *)
Definition scanf_alts : list string :=
  ["d"; "i"; "li"; "lli"; "ld"; "lld"; "lf"; "f"; "s"; "c"].

(** The tuple [re.findall] yields for a match of alternative [a]: the
    whole match, the group of the alternation, and one group per
    alternative (empty unless it is the one that matched). *)
Definition findall_tuple (a : string) : val :=
  PyTuple (PyStr ("%" +:+ a) :: PyStr a ::
           map (fun b => PyStr (if String.eqb a b then a else EmptyString)) scanf_alts).

(** [re.findall(pattern, fmt)]: scan left to right; at a ['%'] take the
    first alternative that matches and continue after it. *)
Fixpoint re_findall_aux (skip : nat) (s : string) : list val :=
  match s with
  | EmptyString => []
  | String c s' =>
      match skip with
      | S k => re_findall_aux k s'
      | O =>
          if Ascii.eqb c (Ascii.ascii_of_nat 37) then
            match List.find (fun a => String.prefix a s') scanf_alts with
            | Some a => findall_tuple a :: re_findall_aux (String.length a) s'
            | None => re_findall_aux 0 s'
            end
          else re_findall_aux 0 s'
      end
  end.
Definition re_findall (s : string) : list val := re_findall_aux 0 s.

(** ** The base parser's interface *)

(** Modelled from the spec: parser.py ([Parser], with [addexpr],
    [numexprs], [rmlastexprs], [addloc], [addtrans], [lastloop],
    [addwarn], [addfnc], [addtype], [endfnc], [visit_if], [visit_loop])
    and the program object behind it are not part of the sources.  The
    spec gives the mutation interface: create-location, add-transition,
    register-function, register-type (fails on duplicate), add-update
    with an optional insertion index, the loop stack, record-warning and
    record-line-scope; updates are scheduled against the current
    location. *)
Definition addlinemap (ln : nat) (prefix : string) : M unit :=
  modify (fun s => set_linemap (st_linemap s ++ [(ln, prefix)]) s).

Definition addwarn (msg : string) (ln : nat) : M unit :=
  modify (fun s => set_warns (st_warns s ++ [(msg, Some ln)]) s).

(** The updates scheduled at location [l]. *)
Definition exprs_at (l : loc) (s : state) : list update :=
  default [] (st_exprs s !! l).

(** The updates scheduled at the current location. *)
Definition cur_exprs (s : state) : list update := exprs_at (st_loc s) s.

(** [list.insert(-k, x)] for [k > 0]: [x] goes ahead of the last [k]
    elements, or to the front when the list is shorter. *)
Definition py_insert_back {A} (k : nat) (x : A) (l : list A) : list A :=
  take (length l - k) l ++ x :: drop (length l - k) l.

(** add-update: [idx = None] appends; [idx = Some k] stands for the
    Python index [-k]. *)
Definition addexpr (name : string) (e : val) (idx : option nat) : M unit :=
  modify (fun s =>
    let l := cur_exprs s in
    let l' := match idx with
              | None => l ++ [(name, e)]
              | Some k => py_insert_back k (name, e) l
              end in
    set_exprs (<[st_loc s := l']> (st_exprs s)) s).

Definition numexprs : M nat := gets (fun s => length (cur_exprs s)).

(** Removal of the [num] most recently added updates of the current
    location. *)
Definition rmlastexprs (num : nat) : M unit :=
  modify (fun s =>
    let l := cur_exprs s in
    set_exprs (<[st_loc s := take (length l - num) l]> (st_exprs s)) s).

(** create-location: a fresh location, which becomes the current one. *)
Definition addloc (desc : string) (ln : nat) : M loc :=
  fun s =>
    let l := st_nextloc s in
    Ok l (set_loc l (set_nextloc (Pos.succ l)
            (set_locdescs (st_locdescs s ++ [(l, (desc, ln))]) s))).

Definition addtrans (from : loc) (g : guard) (to : loc) : M unit :=
  modify (fun s => set_trans (st_trans s ++ [(from, g, to)]) s).

Definition lastloop : M (option (loc * loc * option loc)) :=
  gets (fun s => head (st_loops s)).

Definition addfnc (name : string) (params : list val) (rtype : val) : M unit :=
  modify (fun s => set_fnc name (set_fncs (st_fncs s ++ [(name, params, rtype)]) s)).

Definition endfnc : M unit := modify (set_fnc EmptyString).

(** register-type: an [AssertionError] on a name that has a type in the
    current scope. *)
Definition addtype (name : string) (type : val) : M unit :=
  fun s =>
    match st_types s !! (st_fnc s, name) with
    | Some _ => Err (PyError "AssertionError")
    | None => Ok tt (set_types (<[(st_fnc s, name) := type]> (st_types s)) s)
    end.

(** ** Dynamic operations on values *)

(** [v.line] of an expression object *)
Definition val_line (v : val) : M (option nat) :=
  match v with
  | Var _ l | Const _ l | Op _ _ l => ret l
  | _ => raise (PyError "AttributeError")
  end.

(** [v.copy()]: expressions are immutable here, a copy is the value. *)
Definition py_copy (v : val) : M val :=
  match v with
  | Var _ _ | Const _ _ | Op _ _ _ | PyList _ => ret v
  | _ => raise (PyError "AttributeError")
  end.

(** [(a, b, c) = v] *)
Definition unpack3 (v : val) : M (val * val * val) :=
  match v with
  | PyTuple [a; b; c] | PyList [a; b; c] => ret (a, b, c)
  | PyTuple _ | PyList _ | PyStr _ => raise (PyError "ValueError")
  | _ => raise (PyError "TypeError")
  end.

(** [(a, b) = v] *)
Definition unpack2 (v : val) : M (val * val) :=
  match v with
  | PyTuple [a; b] | PyList [a; b] => ret (a, b)
  | PyStr s =>
      match chars s with
      | [a; b] => ret (PyStr a, PyStr b)
      | _ => raise (PyError "ValueError")
      end
  | PyTuple _ | PyList _ => raise (PyError "ValueError")
  | _ => raise (PyError "TypeError")
  end.

(** [v[:2]] *)
Definition slice2 (v : val) : M val :=
  match v with
  | PyTuple l => ret (PyTuple (take 2 l))
  | PyList l => ret (PyList (take 2 l))
  | PyStr s => ret (PyStr (String.substring 0 2 s))
  | _ => raise (PyError "TypeError")
  end.

(** A value used where the code needs a [str] (concatenation with the
    prefix, a registry key). *)
Definition as_str (v : val) : M string :=
  match v with
  | PyStr s => ret s
  | _ => raise (PyError "TypeError")
  end.

(** [str(v)] of a type name; type nodes yield strings or [None]. *)
Definition py_str (v : val) : M val :=
  match v with
  | PyStr s => ret (PyStr s)
  | PyNone => ret (PyStr "None")
  | _ => raise (PyError "str")
  end.

Definition val_is_str (v : val) (t : string) : bool :=
  match v with PyStr s => String.eqb s t | _ => false end.

(** ** The visitor *)

(** [self.visit]: the dispatcher, passed to every method. *)
Definition visitor : Type := node -> string -> M val.

(** Modelled from the spec: [Parser.visit] on an absent child ([None])
    returns [None]; [Parser.visit_expr] builds the expression of a node
    through the dispatcher. *)
Definition visit_opt (visit : visitor) (n : option node) (prefix : string) : M val :=
  match n with
  | None => ret PyNone
  | Some n => visit n prefix
  end.
Definition visit_expr (visit : visitor) (n : node) (prefix : string) : M val :=
  visit n prefix.
Definition visit_expr_opt (visit : visitor) (n : option node) (prefix : string) : M val :=
  visit_opt visit n prefix.

(** [list(map(self.visit_expr, exprs, prefix))]: [map] over two iterables
    pairs each expression with one character of [prefix] and stops with
    the shorter of the two. *)
Definition map_visit_expr (visit : visitor) (exprs : list node) (prefix : string)
  : M (list val) :=
  mapM (fun ec => visit_expr visit (fst ec) (snd ec)) (zip exprs (chars prefix)).

Definition CONSTS : list string := ["EOF"].
Definition LIB_FNCS : list string :=
  ["floor"; "ceil"; "pow"; "abs"; "sqrt"; "log2"; "log10"; "log"; "exp"].
Definition TYPE_SYNONYMS : list (string * string) :=
  [("double", "float"); ("long_long_int", "int"); ("long_int", "int");
   ("long", "int"); ("unsigned", "int"); ("unsigned_int", "int");
   ("unsigned_long_int", "int"); ("unsigned_long", "int")].

Definition str_in (x : string) (l : list string) : bool :=
  existsb (String.eqb x) l.

Definition visit_ID (name : string) (ln : nat) : M val :=
  if str_in name CONSTS then ret (Const name (Some ln))
  else ret (Var name (Some ln)).

Definition visit_InitList (visit : visitor) (exprs : option (list node))
  (ln : nat) (prefix : string) : M val :=
  es <- map_visit_expr visit (default [] exprs) prefix ;;
  addlinemap ln prefix ;;
  ret (Op "ArrayInit" es (Some ln)).

Definition visit_BinaryOp (visit : visitor) (op : string) (left right : node)
  (ln : nat) (prefix : string) : M val :=
  l <- visit_expr visit left prefix ;;
  r <- visit_expr visit right prefix ;;
  ret (Op op [l; r] (Some ln)).

(** [op[1]] of a two-character operator, as a string *)
Definition op_at1 (op : string) : string := String.substring 1 1 op.
Definition op_at0 (op : string) : string := String.substring 0 1 op.

Definition visit_UnaryOp (visit : visitor) (op : string) (e : node)
  (ln : nat) (prefix : string) : M val :=
  expr <- visit_expr visit e prefix ;;
  if str_in op ["++"; "--"] then
    match expr with
    | Var name _ =>
        c <- py_copy expr ;;
        addexpr name (Op (op_at1 op) [c; Const "1" None] (Some ln)) None ;;
        ret expr
    | _ => raise (NotSupported "++/-- supported only for Vars" [] (Some ln))
    end
  else if str_in op ["p++"; "p--"] then
    match expr with
    | Var name _ =>
        c <- py_copy expr ;;
        addexpr name (Op (op_at1 op) [c; Const "1" None] (Some ln)) None ;;
        modify (fun s => set_postincdec (st_postincdec s + 1) s) ;;
        ret expr
    | _ => raise (NotSupported "p++/p-- supported only for Vars" [] (Some ln))
    end
  else ret (Op op [expr] (Some ln)).

Definition visit_ArrayRef (visit : visitor) (name subscript : node)
  (ln : nat) (prefix : string) : M val :=
  nm <- visit_expr visit name prefix ;;
  if is_Var nm then
    sub <- visit_expr visit subscript prefix ;;
    ret (Op "[]" [nm; sub] (Some ln))
  else raise (NotSupported "ArrayName: '%s'" [nm] None).

Definition visit_Constant (value : string) (ln : nat) : M val :=
  ret (Const value (Some ln)).

Definition visit_Cast (visit : visitor) (to_type e : node)
  (ln : nat) (prefix : string) : M val :=
  tt <- visit to_type prefix ;;
  addlinemap ln prefix ;;
  expr <- visit_expr visit e prefix ;;
  t <- as_str tt ;;
  ret (Op "cast" [Const t None; expr] (Some ln)).

(** Modelled from the spec: [Parser.visit_if] is not part of the sources.
    If: builds the condition; creates a branch for "then" and, if present,
    "else"; both branches converge at a new join location; the absence of
    "else" is an identity (no-update) transition straight to the join.
    It returns [None]. *)
Definition visit_if (visit : visitor) (ln : nat) (cond iftrue : node)
  (iffalse : option node) (prefix : string) : M val :=
  c <- visit_expr visit cond prefix ;;
  preloc <- gets st_loc ;;
  thenloc <- addloc "inside the if-branch starting at line %d" ln ;;
  visit iftrue prefix ;;
  after1 <- gets st_loc ;;
  match iffalse with
  | Some f =>
      elseloc <- addloc "inside the else-branch starting at line %d" ln ;;
      visit f prefix ;;
      after2 <- gets st_loc ;;
      join <- addloc "after the if-statement beginning at line %d" ln ;;
      addtrans preloc (GCond c) thenloc ;;
      addtrans preloc (GNotCond c) elseloc ;;
      addtrans after1 GTrue join ;;
      addtrans after2 GTrue join ;;
      ret PyNone
  | None =>
      join <- addloc "after the if-statement beginning at line %d" ln ;;
      addtrans preloc (GCond c) thenloc ;;
      addtrans preloc (GNotCond c) join ;;
      addtrans after1 GTrue join ;;
      ret PyNone
  end.

(** Modelled from the spec: [Parser.visit_loop] is not part of the
    sources.  The optional init statement runs once before the condition
    location; the body transitions back to the condition location, through
    the update clause when there is one; the loop-stack entry is
    (condition, exit, update-clause location or none); a do-while enters
    the body before the first test; the exit location becomes the current
    location. *)
Definition visit_loop (visit : visitor) (ln : nat) (init cond next : option node)
  (body : node) (do : bool) (name : string) (prefix : string) : M val :=
  visit_opt visit init prefix ;;
  preloc <- gets st_loc ;;
  condloc <- addloc "the condition of the loop at line %s" ln ;;
  c <- visit_expr_opt visit cond prefix ;;
  exitloc <- addloc "after the loop starting at line %d" ln ;;
  nextloc <- match next with
             | Some nx =>
                 l <- addloc "update of the loop at line %d" ln ;;
                 visit nx prefix ;;
                 afternext <- gets st_loc ;;
                 addtrans afternext GTrue condloc ;;
                 ret (Some l)
             | None => ret None
             end ;;
  bodyloc <- addloc "inside the body of the loop beginning at line %d" ln ;;
  modify (fun s => set_loops ((condloc, exitloc, nextloc) :: st_loops s) s) ;;
  visit body prefix ;;
  afterbody <- gets st_loc ;;
  modify (fun s => set_loops (tail (st_loops s)) s) ;;
  addtrans preloc GTrue (if do then bodyloc else condloc) ;;
  addtrans condloc (GCond c) bodyloc ;;
  addtrans condloc (GNotCond c) exitloc ;;
  addtrans afterbody GTrue (default condloc nextloc) ;;
  modify (set_loc exitloc) ;;
  ret PyNone.

Definition visit_TernaryOp (visit : visitor) (cond iftrue iffalse : node)
  (ln : nat) (prefix : string) : M val :=
  c <- visit_expr visit cond prefix ;;
  addlinemap ln prefix ;;
  n <- numexprs ;;
  ift <- visit_expr visit iftrue prefix ;;
  iff <- visit_expr visit iffalse prefix ;;
  m <- numexprs ;;
  if (n <? m)%nat then
    m' <- numexprs ;;
    rmlastexprs (m' - n) ;;
    visit_if visit ln cond iftrue (Some iffalse) prefix
  else ret (Op "ite" [c; ift; iff] (Some ln)).

Definition visit_Assignment (visit : visitor) (op : string) (lv rv : node)
  (ln : nat) (prefix : string) : M val :=
  lvalue <- visit_expr visit lv prefix ;;
  addlinemap ln prefix ;;
  saved <- gets st_postincdec ;;
  modify (set_postincdec 0) ;;
  rvalue <- visit rv prefix ;;
  postincdec <- gets st_postincdec ;;
  modify (set_postincdec saved) ;;
  let rvalue := if truthy rvalue then rvalue else Const "?" (Some ln) in
  (* Cases of assignment operator *)
  rvalue <- (if String.eqb op "=" then ret rvalue
             else if (String.length op =? 2)%nat && String.eqb (op_at1 op) "="
             then lc <- py_copy lvalue ;;
                  l <- val_line rvalue ;;
                  ret (Op (op_at0 op) [lc; rvalue] l)
             else raise (NotSupported "Assignment operator: '%s'"
                           [PyStr op] (Some ln))) ;;
  (* Distinguish lvalue (ID and Array) *)
  lr <- match lvalue with
        | Var name _ => ret (name, rvalue)
        | Op "[]" (Var name l0 :: args) _ =>
            match args with
            | idx :: _ =>
                ic <- py_copy idx ;;
                ret (name, Op "ArrayAssign" [Var name l0; ic; rvalue] (Some ln))
            | [] => raise (PyError "IndexError")
            end
        | Op "[]" [] _ => raise (PyError "IndexError")
        | _ => raise (NotSupported "Assignment lvalue '%s'" [lvalue] (Some ln))
        end ;;
  let '(name, rvalue) := lr in
  (* List of expression *)
  rvalue <- match rvalue with
            | PyList l => match last l with
                          | Some r => ret r
                          | None => raise (PyError "IndexError")
                          end
            | _ => ret rvalue
            end ;;
  (* push this assignment before the previous p++/p-- *)
  rc <- py_copy rvalue ;;
  addexpr name rc (match postincdec with O => None | S _ => Some postincdec end) ;;
  ret lvalue.

(** [item.stmts] of a [case]/[default] group *)
Definition item_stmts (item : node) : error + list node :=
  match item with
  | Case _ stmts _ | Default stmts _ => inr stmts
  | _ => inl (PyError "AttributeError")
  end.

(** [convert(i)] of [visit_Switch], on the items from index [i] on. *)
Fixpoint convert (cond : node) (items : list node) : error + option node :=
  match items with
  | [] => inr None
  | item :: rest =>
      match item_stmts item with
      | inl e => inl e
      | inr stmts =>
          let stmt := Compound (Some stmts) (coord_line item) in
          match item, rest with
          | Default _ _, [] => inr (Some stmt)
          | Case e _ _, _ =>
              match convert cond rest with
              | inl err => inl err
              | inr next =>
                  inr (Some (If (BinaryOp "==" cond e (coord_line e))
                                stmt next (coord_line e)))
              end
          | _, _ => inr None
          end
      end
  end.

Definition visit_Switch (visit : visitor) (cond stmt : node)
  (ln : nat) (prefix : string) : M val :=
  condexpr <- visit_expr visit cond (prefix +:+ "switch.") ;;
  addlinemap ln (prefix +:+ "switch.") ;;
  let unsupported := raise (NotSupported "Switch statement" [] (Some ln)) in
  match stmt with
  | Compound block_items _ =>
      match block_items with
      | None => raise (PyError "TypeError")
      | Some items =>
          match convert cond items with
          | inl e => raise e
          | inr (Some st) =>
              insw <- gets st_inswitch ;;
              modify (set_inswitch true) ;;
              res <- visit st (prefix +:+ "switch.") ;;
              addlinemap ln (prefix +:+ "switch.") ;;
              modify (set_inswitch insw) ;;
              ret res
          | inr None => unsupported
          end
      end
  | _ => unsupported
  end.

(** *** I/O modelling *)

(** The three replacements [visit_printf] applies to the format. *)
Definition normalize_format (fmt : string) : string :=
  replace "%lld" "%d" (replace "%ld" "%d" (replace "%lf" "%f" fmt)).

Definition visit_printf (ln : nat) (args : list val) (prefix : string) : M val :=
  fa <- match args with
        | [] =>
            addwarn "'printf' with zero args at line %s" ln ;;
            ret ("?", Some ln, args)
        | Const value l :: rest => ret (value, l, rest)
        | _ :: _ =>
            addwarn "First argument of 'printf' at lines %s should be a format" ln ;;
            ret ("?", Some ln, args)
        end ;;
  let '(value, l, args) := fa in
  let fmt := Const (normalize_format value) l in
  let expr := Op "StrAppend"
                [Var VAR_OUT None; Op "StrFormat" (fmt :: args) (Some ln)]
                (Some ln) in
  addexpr VAR_OUT expr None ;;
  addlinemap ln prefix ;;
  ret PyNone.

(** [f = f[0]] when [f] is true: the whole match of a [findall] tuple, the
    first character of a string. *)
Definition spec_head (f : val) : M val :=
  if truthy f then
    match f with
    | PyTuple (x :: _) | PyList (x :: _) => ret x
    | PyStr s => match str_first s with
                 | Some c => ret (PyStr c)
                 | None => raise (PyError "IndexError")
                 end
    | _ => raise (PyError "TypeError")
    end
  else ret f.

Definition val_in (f : val) (l : list string) : bool :=
  existsb (val_is_str f) l.

(** The type tag of a conversion specifier, and whether it is invalid. *)
Definition scanf_type (f : val) : string * bool :=
  if val_in f ["%d"; "%ld"; "%i"; "%li"; "%lli"; "%lld"] then ("int", false)
  else if val_in f ["%c"] then ("char", false)
  else if val_in f ["%s"] then ("string", false)
  else if val_in f ["%f"; "%lf"] then ("float", false)
  else if val_is_str f "*" then ("*", false)
  else ("*", true).

(** The body of the loop of [visit_scanf] for one (specifier, argument)
    pair. *)
Definition scanf_pair (ln : nat) (fa : val * val) : M unit :=
  let '(f, a) := fa in
  f <- spec_head f ;;
  let '(t, invalid) := scanf_type f in
  (if invalid then addwarn "Invalid 'scanf' format at line %s." ln else ret tt) ;;
  (* Check argument type *)
  a <- match a with
       | Op "&" [x] _ => ret x
       | Var _ _ | Op "[]" _ _ =>
           addwarn "Forgoten '&' in 'scanf' at line %s?" ln ;; ret a
       | _ => raise (NotSupported "Argument to scanf: '%s'" [a] (Some ln))
       end ;;
  (* Add operations *)
  let rexpr := Op "ListHead" [Const t None; Var VAR_IN None] (Some ln) in
  match a with
  | Var name _ => addexpr name rexpr None
  | Op "[]" (Var name l0 :: rest) _ =>
      match rest with
      | idx :: _ =>
          addexpr name (Op "ArrayAssign" [Var name l0; idx; rexpr] (Some ln)) None
      | [] => raise (PyError "IndexError")
      end
  | Op "[]" [] _ => raise (PyError "IndexError")
  | _ => raise (NotSupported "Argument to scanf: '%s'" [a] (Some ln))
  end ;;
  addexpr VAR_IN (Op "ListTail" [Var VAR_IN None] (Some ln)) None.

(** The specifiers after the padding of [visit_scanf]. *)
Definition scanf_pad (fs : list val) (nargs : nat) : list val :=
  if (length fs <? nargs)%nat
  then fs ++ replicate (nargs - length fs) (PyStr "*")
  else fs.

Definition visit_scanf (ln : nat) (args : list val) (prefix : string) : M val :=
  (* Check format; [self.warn] records the warning *)
  fa <- match args with
        | [] =>
            addwarn "'scanf' without arguments at line %s (ignored)" ln ;;
            raise (PyError "UnboundLocalError")
        | fmt :: rest =>
            let bad :=
              addwarn "First argument of 'scanf' at line %s should be a (string) format (ignored)" ln ;;
              ret (EmptyString, []) in
            match fmt with
            | Const value _ =>
                match str_first value, str_last value with
                | Some a, Some b =>
                    if String.eqb a dquote && String.eqb b dquote
                    then ret (str_strip_ends value, rest)
                    else bad
                | _, _ => raise (PyError "IndexError")
                end
            | _ => bad
            end
        end ;;
  let '(fmt, args) := fa in
  (* Extract format arguments *)
  let fs := re_findall fmt in
  (* Check argument number *)
  fs <- (if negb (length fs =? length args)%nat then
           addwarn "Mismatch between format and number of argument(s)of 'scanf' at line %s." ln ;;
           ret (scanf_pad fs (length args))
         else ret fs) ;;
  (* Iterate formats and arguments *)
  forM (zip fs args) (scanf_pair ln) ;;
  addlinemap ln prefix ;;
  ret PyNone.

Definition fnc_names (s : state) : list string :=
  map (fun f => fst (fst f)) (st_fncs s).

Definition visit_FuncCall (visit : visitor) (name : node) (args : option node)
  (ln : nat) (prefix : string) : M val :=
  nm <- visit_expr visit name prefix ;;
  addlinemap ln prefix ;;
  match nm with
  | Var fname l =>
      (* Parse args *)
      r <- visit_opt visit args prefix ;;
      args <- (if truthy r then
                 match r with
                 | PyList l | PyTuple l => ret l
                 | _ => raise (PyError "TypeError")
                 end
               else ret []) ;;
      fncs <- gets fnc_names ;;
      if String.eqb fname "scanf" then visit_scanf ln args prefix
      else if String.eqb fname "printf" then visit_printf ln args prefix
      else if str_in fname fncs then ret (Op "FuncCall" (nm :: args) (Some ln))
      else if str_in fname LIB_FNCS then ret (Op fname args (Some ln))
      else raise (NotSupported "Unsupported function call: '%s'"
                    [PyStr fname] (Some ln))
  | _ =>
      l <- val_line nm ;;
      raise (NotSupported "Non-var function name: '%s'" [nm] l)
  end.

Definition visit_ExprList (visit : visitor) (exprs : list node)
  (ln : nat) (prefix : string) : M val :=
  addlinemap ln prefix ;;
  es <- map_visit_expr visit exprs prefix ;;
  ret (PyList es).

(** *** Statements *)

Definition visit_If (visit : visitor) (cond iftrue : node) (iffalse : option node)
  (ln : nat) (prefix : string) : M val :=
  visit_if visit ln cond iftrue iffalse (prefix +:+ "if.") ;;
  addlinemap ln (prefix +:+ "if.") ;;
  ret PyNone.

Definition loop_guard (ln : nat) : M unit :=
  insw <- gets st_inswitch ;;
  if insw then raise (NotSupported "Loop inside switch" [] (Some ln)) else ret tt.

Definition visit_While (visit : visitor) (cond stmt : node)
  (ln : nat) (prefix : string) : M val :=
  loop_guard ln ;;
  visit_loop visit ln None (Some cond) None stmt false "while" (prefix +:+ "while.") ;;
  addlinemap ln (prefix +:+ "while.") ;;
  ret PyNone.

Definition visit_DoWhile (visit : visitor) (cond stmt : node)
  (ln : nat) (prefix : string) : M val :=
  loop_guard ln ;;
  visit_loop visit ln None (Some cond) None stmt true "do-while" (prefix +:+ "dowhile.") ;;
  addlinemap ln (prefix +:+ "dowhile.") ;;
  ret PyNone.

Definition visit_For (visit : visitor) (init cond next : option node) (stmt : node)
  (ln : nat) (prefix : string) : M val :=
  loop_guard ln ;;
  visit_loop visit ln init cond next stmt false "for" (prefix +:+ "for.") ;;
  addlinemap ln (prefix +:+ "for.") ;;
  ret PyNone.

Definition visit_Return (visit : visitor) (e : option node)
  (ln : nat) (prefix : string) : M val :=
  expr <- visit_expr_opt visit e prefix ;;
  addlinemap ln prefix ;;
  let expr := if truthy expr then expr else Const "top" (Some ln) in
  addexpr VAR_RET expr None ;;
  ret PyNone.

Definition visit_Break (ln : nat) (prefix : string) : M val :=
  insw <- gets st_inswitch ;;
  nobcs <- gets st_nobcs ;;
  if insw || nobcs then ret PyNone
  else
    (* Find loop *)
    ll <- lastloop ;;
    match ll with
    | None => addwarn "'break' outside loop at line %s" ln ;; ret PyNone
    | Some (condloc, exitloc, nextloc) =>
        (* Add new location and jump to exit location *)
        modify (set_hasbcs true) ;;
        preloc <- gets st_loc ;;
        addloc "after 'break' statement at line %s" ln ;;
        addtrans preloc GTrue exitloc ;;
        addlinemap ln prefix ;;
        ret PyNone
    end.

Definition visit_Continue (ln : nat) (prefix : string) : M val :=
  nobcs <- gets st_nobcs ;;
  if nobcs then ret PyNone
  else
    (* Find loop *)
    ll <- lastloop ;;
    match ll with
    | None => addwarn "'continue' outside loop at line %s" ln ;; ret PyNone
    | Some (condloc, exitloc, nextloc) =>
        (* Add new location and jump to condition location *)
        modify (set_hasbcs true) ;;
        preloc <- gets st_loc ;;
        addloc "after 'continue' statement at line %s" ln ;;
        addtrans preloc GTrue (match nextloc with Some l => l | None => condloc end) ;;
        addlinemap ln prefix ;;
        ret PyNone
    end.

Definition visit_Label (visit : visitor) (stmt : node)
  (ln : nat) (prefix : string) : M val :=
  addwarn "Ignoring label at line %s." ln ;;
  addlinemap ln prefix ;;
  visit stmt prefix.

Definition visit_Goto (ln : nat) (prefix : string) : M val :=
  raise (NotSupported "Not supporting GOTO - it is considered harmful." [] None).

Definition visit_Compound (visit : visitor) (block_items : option (list node))
  (ln : nat) (prefix : string) : M val :=
  forM (default [] block_items) (fun item =>
    res <- visit item prefix ;;
    match res with
    | Op "FuncCall" _ _ => addexpr "_" res None
    | _ => ret tt
    end) ;;
  addlinemap ln prefix ;;
  ret PyNone.

Definition visit_FileAST (visit : visitor) (ext : list node) (prefix : string)
  : M val :=
  forM ext (fun e => visit e prefix ;; ret tt) ;;
  ret PyNone.

(** *** Declarations and functions *)

Definition str_endswith (suffix s : string) : bool :=
  String.eqb
    (String.substring (String.length s - String.length suffix)
       (String.length suffix) s) suffix
  && (String.length suffix <=? String.length s)%nat.

(** ['_'.join(names)] *)
Fixpoint join_underscore (names : list string) : string :=
  match names with
  | [] => EmptyString
  | [n] => n
  | n :: rest => n +:+ "_" +:+ join_underscore rest
  end.

Definition visit_IdentifierType (names : list string) : M val :=
  let name := join_underscore names in
  ret (PyStr (default name (snd <$> List.find (fun p => String.eqb (fst p) name)
                                       TYPE_SYNONYMS))).

Definition visit_TypeDecl (visit : visitor) (declname : option string)
  (type : node) (prefix : string) : M val :=
  t <- visit type prefix ;;
  ret (PyTuple [from_option PyStr PyNone declname; t; PyNone]).

Definition visit_Typename (visit : visitor) (type : node)
  (ln : nat) (prefix : string) : M val :=
  r <- visit type prefix ;;
  up <- unpack3 r ;;
  let '(_, name, _) := up in
  addlinemap ln prefix ;;
  py_str name.

Definition visit_ArrayDecl (visit : visitor) (type : node) (dim : option node)
  (ln : nat) (prefix : string) : M val :=
  r <- visit type prefix ;;
  up <- unpack3 r ;;
  let '(name, ty, d) := up in
  addlinemap ln prefix ;;
  t <- (match d with
        | PyNone => as_str ty
        | _ => raise (NotSupported "Double Array" [] (Some ln))
        end) ;;
  if str_endswith "[]" t then raise (NotSupported "Double Array" [] (Some ln))
  else
    dm <- visit_expr_opt visit dim prefix ;;
    ret (PyTuple [name; PyStr (t +:+ "[]"); dm]).

Definition visit_Decl (visit : visitor) (type : node) (init : option node)
  (ln : nat) (prefix : string) : M val :=
  r <- visit type prefix ;;
  up <- unpack3 r ;;
  let '(name, ty, dim) := up in
  addlinemap ln prefix ;;
  ini <- visit_expr_opt visit init prefix ;;
  fncdef <- gets st_fncdef ;;
  let rest : M val :=
    if truthy ini && truthy dim then
      raise (NotSupported "Array Init & Create together" [] (Some ln))
    else
      (if truthy ini then n <- as_str name ;; addexpr n ini None else ret tt) ;;
      (if truthy dim && negb fncdef then
         n <- as_str name ;;
         l <- val_line dim ;;
         addexpr n (Op "ArrayCreate" [dim] l) None
       else ret tt) ;;
      ret (PyTuple [name; ty; dim]) in
  if fncdef then rest
  else
    n <- as_str name ;;
    fun s =>
      match addtype n ty s with
      | Err (PyError "AssertionError") =>
          (addwarn "Ignored global definition '%s' on line %s." ln ;; ret PyNone) s
      | Err e => Err e
      | Ok _ s' => rest s'
      end.

Definition visit_DeclList (visit : visitor) (decls : list node)
  (ln : nat) (prefix : string) : M val :=
  forM decls (fun d => visit d prefix ;; ret tt) ;;
  addlinemap ln prefix ;;
  ret PyNone.

(** [for v, t in params: self.addtype(v, t)] *)
Definition addtypes (params : list val) : M unit :=
  forM params (fun p =>
    up <- unpack2 p ;;
    let '(v, t) := up in
    n <- as_str v ;;
    addtype n t).

(** The parameter loop of [visit_FuncDef]: a parameter that visits to
    ['void'] is skipped, a [Var] is an [int] parameter, anything else is
    cut to its first two components. *)
Fixpoint FuncDef_params (visit : visitor) (params : list node) (ln : nat)
  (prefix : string) (acc : list val) : M (list val) :=
  match params with
  | [] => ret acc
  | p :: rest =>
      param <- visit p prefix ;;
      addlinemap ln prefix ;;
      if val_is_str param "void" then FuncDef_params visit rest ln prefix acc
      else
        param <- (match param with
                  | Var name _ => ret (PyTuple [PyStr name; PyStr "int"])
                  | _ => slice2 param
                  end) ;;
        FuncDef_params visit rest ln prefix (acc ++ [param])
  end.

(** [visit_FuncDef] up to and including the registration of the function
    ([self.addfnc]); yields the name, the parameters and the return type. *)
Definition FuncDef_header (visit : visitor) (decl : node) (ln : nat)
  (prefix : string) : M (string * list val * val) :=
  match decl with
  | Decl (FuncDecl args ty _) _ _ =>
      modify (set_fncdef true) ;;
      r <- visit ty prefix ;;
      up <- unpack3 r ;;
      let '(nm, rtype, _) := up in
      name <- as_str nm ;;
      params <- FuncDef_params visit (default [] args) ln
                  (prefix +:+ name +:+ ".") [] ;;
      modify (set_fncdef false) ;;
      addfnc name params rtype ;;
      ret (name, params, rtype)
  | _ => raise (PyError "AttributeError")
  end.

Definition visit_FuncDef (visit : visitor) (decl body : node)
  (ln : nat) (prefix : string) : M val :=
  up <- FuncDef_header visit decl ln prefix ;;
  let '(name, params, rtype) := up in
  addtypes params ;;
  addloc "at the beginning of the function '%s' at line %s" ln ;;
  visit body (prefix +:+ name +:+ ".") ;;
  addlinemap ln (prefix +:+ name +:+ ".") ;;
  endfnc ;;
  ret PyNone.

Fixpoint FuncDecl_params (visit : visitor) (params : list node)
  (prefix : string) (acc : list val) : M (list val) :=
  match params with
  | [] => ret acc
  | p :: rest =>
      param <- visit p prefix ;;
      if val_is_str param "void" then FuncDecl_params visit rest prefix acc
      else
        param <- (match param with
                  | Var name _ => ret (PyTuple [PyStr name; PyStr "int"])
                  | PyStr _ => ret (PyTuple [PyStr "_"; param])
                  | _ => slice2 param
                  end) ;;
        FuncDecl_params visit rest prefix (acc ++ [param])
  end.

Definition visit_FuncDecl (visit : visitor) (args : option (list node))
  (type : node) (ln : nat) (prefix : string) : M val :=
  modify (set_fncdef true) ;;
  r <- visit type prefix ;;
  up <- unpack3 r ;;
  let '(nm, rtype, _) := up in
  name <- as_str nm ;;
  params <- FuncDecl_params visit (default [] args) prefix [] ;;
  modify (set_fncdef false) ;;
  addfnc name params rtype ;;
  addtypes params ;;
  endfnc ;;
  addlinemap ln prefix ;;
  ret (PyTuple [PyStr name; rtype; PyNone]).

(** *** The dispatcher *)

(** Modelled from the spec: [Parser.visit] dispatches on the kind of the
    node.  [case]/[default] groups are only reached through
    [visit_Switch], which rewrites them; the parser has no method for
    them. *)
Fixpoint visit (fuel : nat) (n : node) (prefix : string) : M val :=
  match fuel with
  | O => raise OutOfFuel
  | S fuel =>
      let self := visit fuel in
      match n with
      | FileAST ext _ => visit_FileAST self ext prefix
      | FuncDef decl body ln => visit_FuncDef self decl body ln prefix
      | FuncDecl args type ln => visit_FuncDecl self args type ln prefix
      | Decl type init ln => visit_Decl self type init ln prefix
      | ArrayDecl type dim ln => visit_ArrayDecl self type dim ln prefix
      | DeclList decls ln => visit_DeclList self decls ln prefix
      | TypeDecl declname type _ => visit_TypeDecl self declname type prefix
      | IdentifierType names _ => visit_IdentifierType names
      | Typename type ln => visit_Typename self type ln prefix
      | Compound items ln => visit_Compound self items ln prefix
      | Assignment op l r ln => visit_Assignment self op l r ln prefix
      | EmptyStatement _ => ret PyNone
      | ID name ln => visit_ID name ln
      | InitList exprs ln => visit_InitList self exprs ln prefix
      | BinaryOp op l r ln => visit_BinaryOp self op l r ln prefix
      | UnaryOp op e ln => visit_UnaryOp self op e ln prefix
      | ArrayRef name sub ln => visit_ArrayRef self name sub ln prefix
      | Constant _ value ln => visit_Constant value ln
      | Cast t e ln => visit_Cast self t e ln prefix
      | TernaryOp c t f ln => visit_TernaryOp self c t f ln prefix
      | Switch c st ln => visit_Switch self c st ln prefix
      | Case _ _ _ | Default _ _ => raise (PyError "AttributeError")
      | FuncCall name args ln => visit_FuncCall self name args ln prefix
      | ExprList exprs ln => visit_ExprList self exprs ln prefix
      | If c t f ln => visit_If self c t f ln prefix
      | While c st ln => visit_While self c st ln prefix
      | DoWhile c st ln => visit_DoWhile self c st ln prefix
      | For i c nx st ln => visit_For self i c nx st ln prefix
      | Return e ln => visit_Return self e ln prefix
      | Break ln => visit_Break ln prefix
      | Continue ln => visit_Continue ln prefix
      | Label _ st ln => visit_Label self st ln prefix
      | Goto _ ln => visit_Goto ln prefix
      end
  end.

(** The state of a parser before anything is visited. *)
Definition init_state : state :=
  mkState 1%positive 2%positive [] ∅ [] [] 0 false false false false
          EmptyString [] ∅ [] [].

(** * Example inputs and specification-level definitions *)

(** A state inside a switch-desugared region. *)
Definition in_switch_state : state := set_inswitch true init_state.

(** A state inside a switch nested in a loop whose condition location is
    5 and whose exit location is 6: [while (c) { switch (x) { ... } }]. *)
Definition switch_in_loop_state : state :=
  set_loops [(5%positive, 6%positive, None)] (set_inswitch true init_state).

(** A state inside the body of a [for] loop with an update clause at
    location 7. *)
Definition for_body_state : state :=
  set_loops [(5%positive, 6%positive, Some 7%positive)] init_state.

(** A state in which break/continue generation is suppressed. *)
Definition nobcs_state : state := set_nobcs true for_body_state.

(** Shorthands: the assignment [x = rv;] and an integer literal. *)
Definition assign (x : string) (rv : node) (ln : nat) : node :=
  Assignment "=" (ID x ln) rv ln.
Definition int_const (v : string) (ln : nat) : node := Constant "int" v ln.

(** [switch (x) { case 1: a = 1; default: a = 2; case 2: a = 3; }]: the
    default group is not the last one. *)
Definition switch_items_default_in_middle : list node :=
  [Case (int_const "1" 2) [assign "a" (int_const "1" 2) 2] 2;
   Default [assign "a" (int_const "2" 3) 3] 3;
   Case (int_const "2" 4) [assign "a" (int_const "3" 4) 4] 4].
Definition switch_default_in_middle : node :=
  Switch (ID "x" 1) (Compound (Some switch_items_default_in_middle) 1) 1.

(** [switch (x) { case 1: a = 1; default: a = 2; default: a = 3; }] *)
Definition switch_items_two_defaults : list node :=
  [Case (int_const "1" 2) [assign "a" (int_const "1" 2) 2] 2;
   Default [assign "a" (int_const "2" 3) 3] 3;
   Default [assign "a" (int_const "3" 4) 4] 4].

(** [switch (x) { case 1: a = 1; case 2: a = 2; default: a = 3; }] *)
Definition switch_items_well_formed : list node :=
  [Case (int_const "1" 2) [assign "a" (int_const "1" 2) 2] 2;
   Case (int_const "2" 3) [assign "a" (int_const "2" 3) 3] 3;
   Default [assign "a" (int_const "3" 4) 4] 4].

(** A [case] or [default] group. *)
Definition is_group (item : node) : bool :=
  match item with
  | Case _ _ _ | Default _ _ => true
  | _ => false
  end.

(** [x = (a, b, c++);] *)
Definition assign_comma_list : node :=
  assign "x" (ExprList [ID "a" 2; ID "b" 2; UnaryOp "p++" (ID "c" 2) 2] 2) 2.

(** The state at the start of the body of a function [f]. *)
Definition in_f_state : state := set_fnc "f" init_state.

(** The lone [void] parameter of [int main(void)]. *)
Definition void_param (l1 l2 l3 : nat) : node :=
  Typename (TypeDecl None (IdentifierType ["void"] l1) l2) l3.

(** [int main(void) { return 0; }] *)
Definition main_void : node :=
  FuncDef
    (Decl (FuncDecl (Some [void_param 1 1 1])
             (TypeDecl (Some "main") (IdentifierType ["int"] 1) 1) 1) None 1)
    (Compound (Some [Return (Some (int_const "0" 2)) 2]) 1) 1.

(** The state a visit ends in ([dflt] when it raises). *)
Definition state_of {A} (r : result A) (dflt : state) : state :=
  match r with Ok _ s => s | Err _ => dflt end.

(** [u] is scheduled ahead of [v] in the update list [l]. *)
Definition scheduled_before (l : list update) (u v : update) : Prop :=
  exists i j, l !! i = Some u /\ l !! j = Some v /\ i < j.

(** [i++ + ++j] and [x = i++ + ++j;] *)
Definition post_plus_pre : node :=
  BinaryOp "+" (UnaryOp "p++" (ID "i" 2) 2) (UnaryOp "++" (ID "j" 2) 2) 2.
Definition assign_post_plus_pre : node := assign "x" post_plus_pre 2.

(** The updates of [x = i++ + ++j;]: the postfix increment of [i], the
    assignment to [x], the prefix increment of [j]. *)
Definition upd_post_i : update :=
  ("i", Op "+" [Var "i" (Some 2); Const "1" None] (Some 2)).
Definition upd_assign_x : update :=
  ("x", Op "+" [Var "i" (Some 2); Var "j" (Some 2)] (Some 2)).
Definition upd_pre_j : update :=
  ("j", Op "+" [Var "j" (Some 2); Const "1" None] (Some 2)).

(** An expression object ([Var], [Const] or [Op]). *)
Definition is_expr (v : val) : bool := is_Var v || is_Const v || is_Op v.

(** [c ? a : b] and [c ? i++ : 0] *)
Definition ternary_pure : node := TernaryOp (ID "c" 2) (ID "a" 2) (ID "b" 2) 2.
Definition ternary_effect : node :=
  TernaryOp (ID "c" 2) (UnaryOp "p++" (ID "i" 2) 2) (int_const "0" 2) 2.

(** *** Input calls, in the words of the spec *)

(** The targets an input call accepts: the address of a variable or of an
    indexed variable, or (with a warning) the bare variable or indexed
    variable. *)
Inductive scanf_target : val -> Prop :=
| target_addr_var n l l' : scanf_target (Op "&" [Var n l] l')
| target_addr_index n l idx more l1 l2 :
    scanf_target (Op "&" [Op "[]" (Var n l :: idx :: more) l1] l2)
| target_var n l : scanf_target (Var n l)
| target_index n l idx more l1 :
    scanf_target (Op "[]" (Var n l :: idx :: more) l1).

(** A specifier as the loop of [visit_scanf] meets it: a match of the
    pattern, or the wildcard of the padding. *)
Definition valid_spec (f : val) : Prop :=
  (exists a, In a scanf_alts /\ f = findall_tuple a) \/ f = PyStr "*".

Definition specifier_of (f : val) : string :=
  match f with
  | PyTuple (PyStr x :: _) => x
  | PyStr x => x
  | _ => EmptyString
  end.

(** The primitive type tag of a specifier: integer, character, string,
    float, or untyped. *)
Definition spec_type (sp : string) : string :=
  if str_in sp ["%d"; "%i"; "%li"; "%lli"; "%ld"; "%lld"] then "int"
  else if String.eqb sp "%c" then "char"
  else if String.eqb sp "%s" then "string"
  else if str_in sp ["%f"; "%lf"] then "float"
  else "*".

Definition strip_addr (a : val) : val :=
  match a with
  | Op "&" [x] _ => x
  | _ => a
  end.

(** The head-pop of type [t] into the target [a]. *)
Definition head_pop (ln : nat) (t : string) (a : val) : list update :=
  let head := Op "ListHead" [Const t None; Var VAR_IN None] (Some ln) in
  match strip_addr a with
  | Var name _ => [(name, head)]
  | Op "[]" (Var name l0 :: idx :: _) _ =>
      [(name, Op "ArrayAssign" [Var name l0; idx; head] (Some ln))]
  | _ => []
  end.

(** The advance of the input stream to its tail. *)
Definition tail_advance (ln : nat) : update :=
  (VAR_IN, Op "ListTail" [Var VAR_IN None] (Some ln)).

(** The head-pop/tail-advance pair of one (specifier, argument) pair. *)
Definition scanf_pair_updates (ln : nat) (fa : val * val) : list update :=
  head_pop ln (spec_type (specifier_of fa.1)) fa.2 ++ [tail_advance ln].

(** The literal ["%d %d"] with its quotes, and the arguments [&x, &y]. *)
Definition fmt_d_d : val := Const (dquote +:+ "%d %d" +:+ dquote) (Some 3).
Definition addr_of (x : string) : val := Op "&" [Var x (Some 3)] (Some 3).

(** *** Inputs of the further properties *)

(** A state inside the inner of two nested loops: the inner loop has
    condition location 8 and exit location 9, the outer one 5 and 6. *)
Definition nested_loops_state : state :=
  set_loops [(8%positive, 9%positive, None); (5%positive, 6%positive, None)]
    init_state.

(** The line of an expression object. *)
Definition expr_line (v : val) : option nat :=
  match v with
  | Var _ l | Const _ l | Op _ _ l => l
  | _ => None
  end.

(** The update list [l] with [u] placed ahead of its last [k] entries. *)
Definition placed_ahead_of_last (k : nat) (u : update) (l : list update)
  : list update :=
  take (length l - k) l ++ u :: drop (length l - k) l.

(** The state after the global declaration [int x;] of line 1. *)
Definition after_global_x : state :=
  state_of (visit 5 (Decl (TypeDecl (Some "x") (IdentifierType ["int"] 1) 1) None 1)
              EmptyString init_state) init_state.

(** [int x = 5;] at line 2 and [int a[3] = {1};] at line 2. *)
Definition decl_x_init : node :=
  Decl (TypeDecl (Some "x") (IdentifierType ["int"] 2) 2)
       (Some (int_const "5" 2)) 2.
Definition decl_array_init : node :=
  Decl (ArrayDecl (TypeDecl (Some "a") (IdentifierType ["int"] 2) 2)
          (Some (int_const "3" 2)) 2)
       (Some (InitList (Some [int_const "1" 2]) 2)) 2.

(** The keys of the table of type synonyms. *)
Definition synonym_keys : list string := map fst TYPE_SYNONYMS.

(** A state in which a function [g] has been declared. *)
Definition with_g_state : state :=
  set_fncs [("g", [], PyStr "int")] in_f_state.



(** The chain of conditionals of a switch on [cond] with the given case
    groups (expression, statements, line) and optional trailing default
    group: [if cond == e1 {...} else if cond == e2 {...} else {default}]. *)
Fixpoint if_chain (cond : node) (cases : list (node * list node * nat))
  (dflt : option (list node * nat)) : option node :=
  match cases with
  | [] => match dflt with
          | Some (stmts, ln) => Some (Compound (Some stmts) ln)
          | None => None
          end
  | (e, stmts, ln) :: rest =>
      Some (If (BinaryOp "==" cond e (coord_line e))
               (Compound (Some stmts) ln)
               (if_chain cond rest dflt)
               (coord_line e))
  end.

(** The items of a well-formed switch body. *)
Definition switch_items (cases : list (node * list node * nat))
  (dflt : option (list node * nat)) : list node :=
  map (fun c => Case c.1.1 c.1.2 c.2) cases
  ++ match dflt with
     | Some (stmts, ln) => [Default stmts ln]
     | None => []
     end.

(** The character [c] occurs in [s]. *)
Fixpoint has_char (c : Ascii.ascii) (s : string) : bool :=
  match s with
  | EmptyString => false
  | String a s' => Ascii.eqb a c || has_char c s'
  end.

(** The type name a list of specifier words stands for: the words joined
    by underscores, through the table of synonyms. *)
Definition canonical_type (names : list string) : string :=
  let name := join_underscore names in
  default name (snd <$> List.find (fun p => String.eqb (fst p) name) TYPE_SYNONYMS).

(** The declaration [names n] of a parameter or variable [n], without
    initializer, at line [ln]. *)
Definition plain_decl (n : string) (names : list string) (ln : nat) : node :=
  Decl (TypeDecl (Some n) (IdentifierType names ln) ln) None ln.

(** The type name [names] of a cast or of an unnamed parameter. *)
Definition type_name (names : list string) (ln : nat) : node :=
  Typename (TypeDecl None (IdentifierType names ln) ln) ln.

(** The parameter records of a list of (name, specifier words). *)
Definition param_records (ps : list (string * list string)) : list val :=
  map (fun p => PyTuple [PyStr p.1; PyStr (canonical_type p.2)]) ps.

(** The line-map records of the parameters of a function at line [ln]. *)
Definition param_lines (ps : list (string * list string)) (ln : nat)
  (prefix : string) : list (nat * string) :=
  flat_map (fun _ => [(ln, prefix); (ln, prefix)]) ps.

(** *** Inputs on which the visitor leaves side effects behind or drops
    arguments *)

(** [k++ ? i++ : 0]: the condition has a side effect of its own. *)
Definition ternary_cond_effect : node :=
  TernaryOp (UnaryOp "p++" (ID "k" 2) 2) (UnaryOp "p++" (ID "i" 2) 2)
    (int_const "0" 2) 2.

(** [c ? (d ? i++ : 0) : 1]: the side effect sits in a nested ternary. *)
Definition ternary_nested_effect : node :=
  TernaryOp (ID "c" 2)
    (TernaryOp (ID "d" 2) (UnaryOp "p++" (ID "i" 2) 2) (int_const "0" 2) 2)
    (int_const "1" 2) 2.

Definition upd_post_k : update :=
  ("k", Op "+" [Var "k" (Some 2); Const "1" None] (Some 2)).

(** [printf("%ld %ld\n", x, y);] *)
Definition printf_two_values : node :=
  FuncCall (ID "printf" 2)
    (Some (ExprList [Constant "string" "%ld %ld\n" 2; ID "x" 2; ID "y" 2] 2)) 2.

(** [scanf("%d %d", &x, &y);] *)
Definition scanf_two_values : node :=
  FuncCall (ID "scanf" 2)
    (Some (ExprList [Constant "string" (dquote +:+ "%d %d" +:+ dquote) 2;
                     UnaryOp "&" (ID "x" 2) 2; UnaryOp "&" (ID "y" 2) 2] 2)) 2.

(** [int x = i++;] at line 2. *)
Definition decl_x_init_effect : node :=
  Decl (TypeDecl (Some "x") (IdentifierType ["int"] 2) 2)
       (Some (UnaryOp "p++" (ID "i" 2) 2)) 2.

(** * Properties *)

(** ** The update store *)

Lemma exprs_at_set_exprs_eq (s : state) (l : list update) :
  exprs_at (st_loc s) (set_exprs (<[st_loc s := l]> (st_exprs s)) s) = l.
Proof. unfold exprs_at; simpl. by rewrite lookup_insert_eq. Qed.

Lemma exprs_at_set_exprs_ne (s : state) (l : list update) (k : loc) :
  k ≠ st_loc s ->
  exprs_at k (set_exprs (<[st_loc s := l]> (st_exprs s)) s) = exprs_at k s.
Proof. intros Hk. unfold exprs_at; simpl. by rewrite lookup_insert_ne. Qed.

(** What one [addexpr] does: the update lands in the list of the current
    location and nowhere else. *)
Lemma addexpr_append (name : string) (e : val) (s : state) :
  exists s', addexpr name e None s = Ok tt s'
    /\ st_loc s' = st_loc s
    /\ cur_exprs s' = cur_exprs s ++ [(name, e)]
    /\ (forall k, k ≠ st_loc s -> exprs_at k s' = exprs_at k s)
    /\ st_warns s' = st_warns s
    /\ st_postincdec s' = st_postincdec s.
Proof.
  eexists; split; [reflexivity|].
  repeat split; try reflexivity.
  - unfold cur_exprs at 1. simpl. apply exprs_at_set_exprs_eq.
  - intros k Hk. by apply exprs_at_set_exprs_ne.
Qed.

Ltac monad_unfold :=
  unfold bind, ret, gets, modify, raise in *.

(** ** Loops inside a switch *)

(** C7. Visiting a while, do-while or for loop while the inside-switch
    flag is set raises the unsupported-construct failure, and the failure
    carries the line of the loop. *)
Theorem loop_inside_switch_not_supported
  (visit : visitor) (init cond' next : option node) (cond stmt : node)
  (ln : nat) (prefix : string) (s : state)
  (Hsw : st_inswitch s = true) :
  visit_While visit cond stmt ln prefix s
    = Err (NotSupported "Loop inside switch" [] (Some ln))
  /\ visit_DoWhile visit cond stmt ln prefix s
    = Err (NotSupported "Loop inside switch" [] (Some ln))
  /\ visit_For visit init cond' next stmt ln prefix s
    = Err (NotSupported "Loop inside switch" [] (Some ln)).
Proof.
  unfold visit_While, visit_DoWhile, visit_For, loop_guard.
  monad_unfold. rewrite Hsw. auto.
Qed.

(** The same through the dispatcher, whatever the fuel left for the loop
    body. *)
Lemma visit_loop_inside_switch (fuel : nat) (cond stmt : node) (ln : nat)
  (prefix : string) (s : state) :
  st_inswitch s = true ->
  visit (S fuel) (While cond stmt ln) prefix s
    = Err (NotSupported "Loop inside switch" [] (Some ln)).
Proof.
  intros Hsw. simpl. unfold visit_While, loop_guard. monad_unfold.
  by rewrite Hsw.
Qed.

Lemma loop_inside_switch_witness :
  visit_While (visit 5) (ID "c" 3) (EmptyStatement 3) 3 "main.switch." in_switch_state
    = Err (NotSupported "Loop inside switch" [] (Some 3))
  /\ visit_DoWhile (visit 5) (ID "c" 3) (EmptyStatement 3) 3 "main.switch." in_switch_state
    = Err (NotSupported "Loop inside switch" [] (Some 3))
  /\ visit_For (visit 5) None (Some (ID "c" 3)) None (EmptyStatement 3) 3
       "main.switch." in_switch_state
    = Err (NotSupported "Loop inside switch" [] (Some 3)).
Proof.
  apply (loop_inside_switch_not_supported (visit 5) None (Some (ID "c" 3)) None
           (ID "c" 3) (EmptyStatement 3) 3 "main.switch." in_switch_state).
  reflexivity.
Defined.

(** ** Goto *)

(** C8. Visiting a goto node raises the unsupported-construct failure in
    every parser state, directly and through the dispatcher. *)
Theorem goto_not_supported (fuel : nat) (name : string) (ln : nat)
  (prefix : string) (s : state) :
  visit_Goto ln prefix s
    = Err (NotSupported "Not supporting GOTO - it is considered harmful." [] None)
  /\ visit (S fuel) (Goto name ln) prefix s
    = Err (NotSupported "Not supporting GOTO - it is considered harmful." [] None).
Proof. split; reflexivity. Qed.

(** A compound statement with a goto among its items never builds
    anything: the visit fails at the goto, or at an earlier item. *)
Lemma compound_with_goto_fails (fuel : nat) (items : list node) (name : string)
  (gl ln : nat) (prefix : string) (s : state) :
  In (Goto name gl) items ->
  exists e, visit fuel (Compound (Some items) ln) prefix s = Err e.
Proof.
  destruct fuel as [|fuel]; [by eexists|].
  intros Hin. simpl. unfold visit_Compound. simpl.
  assert (Hloop : forall s0, exists e,
    forM items (fun item =>
      res <- visit fuel item prefix ;;
      match res with
      | Op "FuncCall" _ _ => addexpr "_" res None
      | _ => ret tt
      end) s0 = Err e).
  { induction items as [|item items IH]; [destruct Hin|].
    intros s0. simpl. unfold bind at 1.
    destruct Hin as [->|Hin].
    - destruct fuel; simpl; unfold bind; simpl; by eexists.
    - match goal with |- context [match ?c with _ => _ end] => destruct c as [a s1|e] end;
        [|by eexists].
      apply IH, Hin. }
  unfold bind at 1. destruct (Hloop s) as [e ->]. by eexists.
Qed.

(** ** Break and continue *)

(** C3, as the code has it.  [continue] is a no-op exactly when
    break/continue generation is suppressed; the inside-switch flag plays
    no part (a [continue] inside a [switch] belongs to the enclosing
    loop).  Otherwise, with an empty loop stack it records a warning and
    adds nothing, and with a non-empty loop stack it adds a transition from
    the current location to the innermost loop's continue-target: the
    update-clause location when present, else the condition location. *)
Theorem continue_applicability (ln : nat) (prefix : string) (s : state) :
  (st_nobcs s = true -> visit_Continue ln prefix s = Ok PyNone s)
  /\ (st_nobcs s = false -> st_loops s = [] ->
      visit_Continue ln prefix s
        = Ok PyNone (set_warns (st_warns s
                       ++ [("'continue' outside loop at line %s", Some ln)]) s))
  /\ (forall condloc exitloc nextloc rest,
      st_nobcs s = false ->
      st_loops s = (condloc, exitloc, nextloc) :: rest ->
      exists s', visit_Continue ln prefix s = Ok PyNone s'
        /\ st_trans s' = st_trans s ++ [(st_loc s, GTrue, default condloc nextloc)]
        /\ st_hasbcs s' = true
        /\ st_loops s' = st_loops s
        /\ st_exprs s' = st_exprs s
        /\ st_warns s' = st_warns s).
Proof.
  unfold visit_Continue, lastloop. monad_unfold.
  split; [|split].
  - intros ->. reflexivity.
  - intros -> ->. reflexivity.
  - intros c e nx rest Hn Hl. rewrite Hn, Hl. simpl.
    eexists; split; [reflexivity|].
    destruct nx; repeat split; simpl; auto.
Qed.

Lemma continue_applicability_witness :
  visit_Continue 7 "main.for." nobcs_state = Ok PyNone nobcs_state
  /\ visit_Continue 7 "main." init_state
       = Ok PyNone (set_warns [("'continue' outside loop at line %s", Some 7)] init_state)
  /\ exists s', visit_Continue 7 "main.for." for_body_state = Ok PyNone s'
       /\ st_trans s' = [(1%positive, GTrue, 7%positive)].
Proof.
  split; [|split].
  - apply (proj1 (continue_applicability 7 "main.for." nobcs_state)). reflexivity.
  - apply (proj1 (proj2 (continue_applicability 7 "main." init_state)));
      reflexivity.
  - destruct (proj2 (proj2 (continue_applicability 7 "main.for." for_body_state))
                5%positive 6%positive (Some 7%positive) [] eq_refl eq_refl)
      as (s' & Hv & Htr & _).
    exists s'. split; [exact Hv | exact Htr].
Defined.

(** C3, as stated, fails: inside a switch-desugared region nested in a
    loop, [break] is a no-op but [continue] is not; it adds a transition
    to the loop's condition location. *)
Lemma continue_inside_switch_counterexample :
  st_inswitch switch_in_loop_state = true
  /\ visit_Break 7 "main.while.switch." switch_in_loop_state
       = Ok PyNone switch_in_loop_state
  /\ visit_Continue 7 "main.while.switch." switch_in_loop_state
       <> Ok PyNone switch_in_loop_state
  /\ exists s', visit_Continue 7 "main.while.switch." switch_in_loop_state
                  = Ok PyNone s'
       /\ st_trans s' = [(1%positive, GTrue, 5%positive)].
Proof.
  split; [reflexivity|]. split; [reflexivity|]. split.
  - intros H.
    apply (f_equal (fun r => match r with Ok _ s => st_trans s | Err _ => [] end)) in H.
    discriminate H.
  - eexists; split; reflexivity.
Qed.

(** ** Output calls *)

(** [visit_printf] on the arguments it is given.  An output call whose
    first argument is a literal schedules
    exactly one update, on the output stream, at the current location:
    [StrAppend(out, StrFormat(format, remaining-args...))], the format
    normalized by the rewrites of ["%lf"], ["%ld"] and ["%lld"] to their
    base forms; ["%ld\n"] becomes ["%d\n"]. *)
Theorem printf_literal_format (ln : nat) (fmt : string) (fl : option nat)
  (rest : list val) (prefix : string) (s : state) :
  exists s',
    visit_printf ln (Const fmt fl :: rest) prefix s = Ok PyNone s'
    /\ st_loc s' = st_loc s
    /\ cur_exprs s'
       = cur_exprs s
         ++ [(VAR_OUT,
              Op "StrAppend"
                [Var VAR_OUT None;
                 Op "StrFormat" (Const (normalize_format fmt) fl :: rest) (Some ln)]
                (Some ln))]
    /\ (forall k, k ≠ st_loc s -> exprs_at k s' = exprs_at k s)
    /\ st_warns s' = st_warns s
    /\ normalize_format "%ld\n" = "%d\n"
    /\ normalize_format "%lld %lf" = "%d %f".
Proof.
  unfold visit_printf, addexpr, addlinemap. monad_unfold. simpl.
  eexists. split; [reflexivity|].
  repeat split; try reflexivity.
  - unfold cur_exprs at 1. simpl. apply exprs_at_set_exprs_eq.
  - intros k Hk. simpl. by apply exprs_at_set_exprs_ne.
Qed.

(** [printf("%ld\n", x)] in [main]: one append update, the format
    normalized. *)
Lemma printf_ld_example :
  exists s',
    visit 5 (FuncCall (ID "printf" 3)
               (Some (ExprList [Constant "string" "%ld\n" 3; ID "x" 3] 3)) 3)
      "main." init_state = Ok PyNone s'
    /\ cur_exprs s'
       = [(VAR_OUT,
           Op "StrAppend"
             [Var VAR_OUT None;
              Op "StrFormat" [Const "%d\n" (Some 3); Var "x" (Some 3)] (Some 3)]
             (Some 3))].
Proof. vm_compute. eexists; split; reflexivity. Qed.

(** ** Switch *)

(** The rewriting of a switch body never rejects what follows a first
    [case] group: whatever groups come after it, in whatever order, a
    statement is produced. *)
Lemma convert_case_first (cond e : node) (stmts rest : list node) (ln : nat) :
  forallb is_group rest = true ->
  exists st, convert cond (Case e stmts ln :: rest) = inr (Some st).
Proof.
  intros Hrest.
  assert (Hok : exists r, convert cond rest = inr r).
  { clear e stmts ln. induction rest as [|item rest IH]; [by eexists|].
    simpl in Hrest. apply andb_prop in Hrest as [Hitem Hrest].
    destruct (IH Hrest) as [r Hr].
    destruct item; try discriminate Hitem; simpl.
    - rewrite Hr. by eexists.
    - destruct rest; by eexists. }
  destruct Hok as [r Hr]. simpl. rewrite Hr. by eexists.
Qed.

(** C4 on the code: a switch whose [default] group is followed by another
    group, or by a second [default], is not rejected.  The rewriting stops
    at the misplaced [default] and drops it and everything after it, and
    the visit succeeds, scheduling only the update of the first case. *)
Theorem switch_default_not_last_accepted :
  convert (ID "x" 1) switch_items_default_in_middle
    = inr (Some (If (BinaryOp "==" (ID "x" 1) (int_const "1" 2) 2)
                    (Compound (Some [assign "a" (int_const "1" 2) 2]) 2)
                    None 2))
  /\ convert (ID "x" 1) switch_items_two_defaults
    = convert (ID "x" 1) switch_items_default_in_middle
  /\ exists s',
      visit 8 switch_default_in_middle "main." init_state = Ok PyNone s'
      /\ map_to_list (st_exprs s') = [(2%positive, [("a", Const "1" (Some 2))])]
      /\ st_inswitch s' = false.
Proof.
  split; [reflexivity|]. split; [reflexivity|].
  vm_compute. eexists; repeat split; reflexivity.
Qed.

(** A statement ahead of the first group has no [stmts] attribute: the
    rewriting stops with Python's [AttributeError], not with the
    unsupported-construct failure. *)
Lemma switch_leading_statement_error (visit : visitor) (cond : node)
  (x : string) (rv : node) (al : nat) (rest : list node) (cl ln : nat)
  (prefix : string) (s : state) (c : val) (s1 : state) :
  visit cond (prefix +:+ "switch.") s = Ok c s1 ->
  visit_Switch visit cond (Compound (Some (assign x rv al :: rest)) cl) ln prefix s
  = Err (PyError "AttributeError").
Proof.
  intros Hc. unfold visit_Switch, visit_expr. unfold bind at 1. rewrite Hc.
  reflexivity.
Qed.

(** A well-formed body is rewritten into the chain of conditionals. *)
Lemma convert_well_formed_example :
  convert (ID "x" 1) switch_items_well_formed
    = inr (Some
        (If (BinaryOp "==" (ID "x" 1) (int_const "1" 2) 2)
            (Compound (Some [assign "a" (int_const "1" 2) 2]) 2)
            (Some (If (BinaryOp "==" (ID "x" 1) (int_const "2" 3) 3)
                      (Compound (Some [assign "a" (int_const "2" 3) 3]) 3)
                      (Some (Compound (Some [assign "a" (int_const "3" 4) 4]) 4))
                      3))
            2)).
Proof. reflexivity. Qed.

(** A body that starts with a [default] group that is not the last one is
    rejected. *)
Lemma switch_default_first_rejected (visit : visitor) (cond : node)
  (stmts : list node) (item : node) (rest : list node) (dl cl ln : nat)
  (prefix : string) (s : state) (c : val) (s1 : state) :
  visit cond (prefix +:+ "switch.") s = Ok c s1 ->
  visit_Switch visit cond (Compound (Some (Default stmts dl :: item :: rest)) cl)
    ln prefix s
  = Err (NotSupported "Switch statement" [] (Some ln)).
Proof.
  intros Hc. unfold visit_Switch, visit_expr. unfold bind at 1. rewrite Hc.
  reflexivity.
Qed.

(** ** Expression lists *)

(** C10 on the code: in a function [f] the scope prefix is ["f."], two
    characters, so only the first two expressions of [(a, b, c++)] are
    visited: the update of [x] is [b], not the last expression, and the
    increment of [c] is never scheduled. *)
Theorem assignment_comma_list_truncated :
  exists s',
    visit 6 assign_comma_list "f." in_f_state = Ok (Var "x" (Some 2)) s'
    /\ cur_exprs s' = [("x", Var "b" (Some 2))]
    /\ st_postincdec s' = 0.
Proof. vm_compute. eexists; repeat split; reflexivity. Qed.

(** The expression list itself: as many expressions are visited as the
    prefix has characters. *)
Lemma visit_ExprList_length (visit : visitor) (exprs : list node) (ln : nat)
  (prefix : string) (s s' : state) (l : list val) :
  visit_ExprList visit exprs ln prefix s = Ok (PyList l) s' ->
  length l = min (length exprs) (String.length prefix).
Proof.
  unfold visit_ExprList, map_visit_expr, addlinemap. monad_unfold.
  assert (Hlen : length (zip exprs (chars prefix))
                 = min (length exprs) (String.length prefix)).
  { rewrite length_zip_with. f_equal.
    induction prefix as [|a p IH]; simpl; [reflexivity|]. by rewrite IH. }
  rewrite <- Hlen. clear Hlen.
  generalize (zip exprs (chars prefix)) as ps.
  generalize (set_linemap (st_linemap s ++ [(ln, prefix)]) s) as s0.
  clear s. intros s0 ps. revert s0 l.
  assert (Hm : forall s0 l s1,
    mapM (fun ec : node * string => visit_expr visit ec.1 ec.2) ps s0 = Ok l s1 ->
    length l = length ps).
  { induction ps as [|p ps IH]; intros s0 l s1; simpl.
    - unfold ret. intros [= <- _]. reflexivity.
    - unfold bind at 1. destruct (visit_expr visit p.1 p.2 s0) as [y s2|]; [|discriminate].
      unfold bind at 1.
      destruct (mapM _ ps s2) as [ys s3|] eqn:Hys; [|discriminate].
      unfold ret. intros [= <- _]. simpl. f_equal. eapply IH, Hys. }
  intros s0 l.
  destruct (mapM _ ps s0) as [ys s3|] eqn:Hys; [|discriminate].
  intros [= <- _]. eapply Hm, Hys.
Qed.

(** ** Function definitions *)

(** The lone [void] parameter visits to the string ['void']. *)
Lemma visit_void_param (fuel l1 l2 l3 : nat) (prefix : string) (s : state) :
  visit (3 + fuel) (void_param l1 l2 l3) prefix s
  = Ok (PyStr "void") (set_linemap (st_linemap s ++ [(l3, prefix)]) s).
Proof. reflexivity. Qed.

(** C9. For a function definition whose parameter list is a lone [void],
    once the declarator has been resolved to the function's name and
    return type, the function is registered with an empty parameter list,
    and the rest of the definition (entry location, body, closing of the
    scope) runs from there with no parameter type to register. *)
Theorem funcdef_lone_void_no_params
  (fuel l1 l2 l3 lf ld ln : nat) (ty body : node) (init : option node)
  (prefix name : string) (rtype d : val) (s s1 : state)
  (Hty : visit (3 + fuel) ty prefix (set_fncdef true s)
         = Ok (PyTuple [PyStr name; rtype; d]) s1) :
  let decl := Decl (FuncDecl (Some [void_param l1 l2 l3]) ty lf) init ld in
  exists s2,
    FuncDef_header (visit (3 + fuel)) decl ln prefix s = Ok (name, [], rtype) s2
    /\ st_fncs s2 = st_fncs s1 ++ [(name, [], rtype)]
    /\ st_types s2 = st_types s1
    /\ visit_FuncDef (visit (3 + fuel)) decl body ln prefix s
       = (addloc "at the beginning of the function '%s' at line %s" ln ;;
          visit (3 + fuel) body (prefix +:+ name +:+ ".") ;;
          addlinemap ln (prefix +:+ name +:+ ".") ;;
          endfnc ;;
          ret PyNone) s2.
Proof.
  intros decl.
  assert (Hh : exists s2,
    FuncDef_header (visit (3 + fuel)) decl ln prefix s = Ok (name, [], rtype) s2
    /\ st_fncs s2 = st_fncs s1 ++ [(name, [], rtype)]
    /\ st_types s2 = st_types s1).
  { unfold decl, FuncDef_header.
    unfold bind at 1. unfold modify at 1.
    unfold bind at 1. rewrite Hty.
    unfold bind at 1. simpl unpack3. unfold ret at 1.
    unfold bind at 1. simpl as_str. unfold ret at 1.
    unfold bind at 1. simpl default.
    unfold FuncDef_params. unfold bind at 1.
    rewrite visit_void_param.
    eexists. split; [reflexivity|]. split; reflexivity. }
  destruct Hh as (s2 & Hh & Hf & Ht).
  exists s2. split; [exact Hh|]. split; [exact Hf|]. split; [exact Ht|].
  unfold visit_FuncDef. unfold bind at 1. rewrite Hh. reflexivity.
Qed.

Lemma funcdef_lone_void_witness :
  exists s2,
    FuncDef_header (visit 5)
      (Decl (FuncDecl (Some [void_param 1 1 1])
               (TypeDecl (Some "main") (IdentifierType ["int"] 1) 1) 1) None 1)
      1 EmptyString init_state
    = Ok ("main", [], PyStr "int") s2
    /\ st_fncs s2 = [("main", [], PyStr "int")].
Proof.
  destruct (funcdef_lone_void_no_params 2 1 1 1 1 1 1
              (TypeDecl (Some "main") (IdentifierType ["int"] 1) 1)
              (Compound None 1) None EmptyString "main" (PyStr "int") PyNone
              init_state (set_fncdef true init_state) eq_refl)
    as (s2 & Hh & Hf & _).
  exists s2. split; [exact Hh | exact Hf].
Defined.

(** [int main(void) { return 0; }] through the dispatcher: [main] is
    registered with no parameters. *)
Lemma main_void_example :
  exists s',
    visit 8 main_void EmptyString init_state = Ok PyNone s'
    /\ st_fncs s' = [("main", [], PyStr "int")]
    /\ st_types s' = ∅.
Proof. vm_compute. eexists; repeat split; reflexivity. Qed.

(** ** Assignments and postfix increments *)

Lemma py_insert_back_0 {A} (x : A) (l : list A) :
  py_insert_back 0 x l = l ++ [x].
Proof.
  unfold py_insert_back. rewrite Nat.sub_0_r, take_ge, drop_ge by lia.
  reflexivity.
Qed.

(** What the code does.  A postfix [++]/[--] on a variable schedules
    [var := var op 1] at the current location and increments the
    pending-postfix counter.  An assignment builds its right-hand side
    with the counter reset to 0 and restores the saved counter afterwards;
    with [k] the count the right-hand side left, its own update goes ahead
    of the last [k] updates scheduled at the current location (at the end
    when [k = 0]), whichever updates those are. *)
Theorem assignment_postfix_order :
  (forall (visit : visitor) (op : string) (e : node) (ln : nat) (prefix : string)
          (s s1 : state) (v : string) (l : option nat),
      op = "p++" \/ op = "p--" ->
      visit e prefix s = Ok (Var v l) s1 ->
      exists s2,
        visit_UnaryOp visit op e ln prefix s = Ok (Var v l) s2
        /\ st_loc s2 = st_loc s1
        /\ cur_exprs s2
           = cur_exprs s1 ++ [(v, Op (op_at1 op) [Var v l; Const "1" None] (Some ln))]
        /\ st_postincdec s2 = st_postincdec s1 + 1)
  /\ (forall (visit : visitor) (lv rv : node) (ln : nat) (prefix : string)
             (s s1 s2 : state) (x : string) (l : option nat) (rvalue : val),
      visit lv prefix s = Ok (Var x l) s1 ->
      visit rv prefix
        (set_postincdec 0 (set_linemap (st_linemap s1 ++ [(ln, prefix)]) s1))
        = Ok rvalue s2 ->
      is_expr rvalue = true ->
      exists s3,
        visit_Assignment visit "=" lv rv ln prefix s = Ok (Var x l) s3
        /\ st_postincdec s3 = st_postincdec s1
        /\ st_loc s3 = st_loc s2
        /\ cur_exprs s3
           = take (length (cur_exprs s2) - st_postincdec s2) (cur_exprs s2)
             ++ (x, rvalue)
             :: drop (length (cur_exprs s2) - st_postincdec s2) (cur_exprs s2)).
Proof.
  split.
  - intros visit op e ln prefix s s1 v l Hop He.
    unfold visit_UnaryOp, visit_expr. unfold bind at 1. rewrite He.
    destruct Hop as [-> | ->]; simpl; monad_unfold; simpl;
      (eexists; split; [reflexivity|]; repeat split; try reflexivity;
       unfold cur_exprs at 1; simpl; apply exprs_at_set_exprs_eq).
  - intros visit lv rv ln prefix s s1 s2 x l rvalue Hl Hr Hex.
    unfold visit_Assignment, visit_expr, addlinemap.
    unfold bind at 1. rewrite Hl.
    unfold bind at 1. unfold modify at 1.
    unfold bind at 1. unfold gets at 1.
    unfold bind at 1. unfold modify at 1.
    unfold bind at 1. simpl st_postincdec. rewrite Hr.
    assert (Htr : truthy rvalue = true) by (destruct rvalue; try discriminate; reflexivity).
    rewrite Htr.
    assert (Hcp : forall s0, py_copy rvalue s0 = Ok rvalue s0)
      by (destruct rvalue; try discriminate; reflexivity).
    assert (Hnl : forall s0,
      match rvalue with
      | PyList l0 =>
          match last l0 with
          | Some r => ret r
          | None => raise (PyError "IndexError")
          end
      | _ => ret rvalue
      end s0 = Ok rvalue s0)
      by (destruct rvalue; try discriminate; reflexivity).
    monad_unfold. simpl. rewrite Hnl, Hcp.
    destruct (st_postincdec s2) as [|k] eqn:Hk.
    + eexists. split; [reflexivity|]. repeat split; try reflexivity.
      unfold cur_exprs at 1. unfold exprs_at at 1. simpl.
      rewrite lookup_insert_eq. simpl.
      change (cur_exprs (set_postincdec (st_postincdec s1) s2)) with (cur_exprs s2).
      rewrite Nat.sub_0_r, take_ge, drop_ge by lia.
      reflexivity.
    + eexists. split; [reflexivity|]. repeat split; try reflexivity.
      unfold cur_exprs at 1. unfold exprs_at at 1. simpl.
      rewrite lookup_insert_eq. simpl. reflexivity.
Qed.

Lemma assignment_postfix_order_witness :
  (exists s2,
      visit_UnaryOp (visit 5) "p++" (ID "i" 2) 2 "f." in_f_state
        = Ok (Var "i" (Some 2)) s2
      /\ cur_exprs s2 = [upd_post_i]
      /\ st_postincdec s2 = 1)
  /\ (exists s3,
      visit_Assignment (visit 5) "=" (ID "x" 2) post_plus_pre 2 "f." in_f_state
        = Ok (Var "x" (Some 2)) s3
      /\ st_postincdec s3 = 0
      /\ cur_exprs s3 = [upd_post_i; upd_assign_x; upd_pre_j]).
Proof.
  split.
  - destruct (proj1 assignment_postfix_order (visit 5) "p++" (ID "i" 2) 2 "f."
                in_f_state in_f_state "i" (Some 2) (or_introl eq_refl) eq_refl)
      as (s2 & Hv & _ & Hex & Hk).
    exists s2. split; [exact Hv|]. split; [exact Hex | exact Hk].
  - destruct (proj2 assignment_postfix_order (visit 5) (ID "x" 2) post_plus_pre 2 "f."
                in_f_state in_f_state
                (state_of (visit 5 post_plus_pre "f."
                             (set_postincdec 0
                                (set_linemap (st_linemap in_f_state ++ [(2, "f.")])
                                   in_f_state)))
                          init_state)
                "x" (Some 2)
                (Op "+" [Var "i" (Some 2); Var "j" (Some 2)] (Some 2))
                eq_refl eq_refl eq_refl)
      as (s3 & Hv & Hk & _ & Hex).
    exists s3. split; [exact Hv|]. split; [exact Hk|].
    rewrite Hex. reflexivity.
Defined.

(** In [x = i++ + ++j;] the counter is 1 and the
    assignment's update goes ahead of the last scheduled update, which is
    the prefix increment of [j]; the postfix increment of [i] stays ahead
    of the assignment. *)
Lemma assignment_ahead_of_postfix_counterexample :
  exists s',
    visit 6 assign_post_plus_pre "f." in_f_state = Ok (Var "x" (Some 2)) s'
    /\ cur_exprs s' = [upd_post_i; upd_assign_x; upd_pre_j]
    /\ ~ scheduled_before (cur_exprs s') upd_assign_x upd_post_i.
Proof.
  eexists. split; [vm_compute; reflexivity|].
  split; [reflexivity|].
  intros (i & j & Hi & Hj & Hlt).
  change (cur_exprs _) with [upd_post_i; upd_assign_x; upd_pre_j] in Hi, Hj.
  destruct j as [|[|[|j]]]; simpl in Hj; try discriminate Hj.
  lia.
Qed.

(** ** Ternary expressions *)

(** [visit_TernaryOp] relative to the count at the current location.  Let
    the condition build to [c], and the two branches to [ift] and
    [iff], leaving the state [s3].  If the current location holds no more
    updates than before the branches were built, the ternary is the pure
    value [Op('ite', c, ift, iff)] and the state is the one the branches
    left: nothing is added or removed.  If it holds more, the count is
    brought back to what it was by removing the newest updates, all other
    locations are untouched, the ternary is then visited as an if/else
    statement on its condition and branches, and when the branches only
    appended to the current location the update list is exactly the one
    from before the branches. *)
Theorem ternary_pure_or_split
  (visit : visitor) (cond iftrue iffalse : node) (ln : nat) (prefix : string)
  (s s1 s2 s3 : state) (c ift iff : val)
  (Hc : visit cond prefix s = Ok c s1)
  (Ht : visit iftrue prefix (set_linemap (st_linemap s1 ++ [(ln, prefix)]) s1)
        = Ok ift s2)
  (Hf : visit iffalse prefix s2 = Ok iff s3) :
  (length (cur_exprs s3) <= length (cur_exprs s1) ->
   visit_TernaryOp visit cond iftrue iffalse ln prefix s
     = Ok (Op "ite" [c; ift; iff] (Some ln)) s3)
  /\ (length (cur_exprs s1) < length (cur_exprs s3) ->
      exists s4,
        visit_TernaryOp visit cond iftrue iffalse ln prefix s
          = visit_if visit ln cond iftrue (Some iffalse) prefix s4
        /\ st_loc s4 = st_loc s3
        /\ cur_exprs s4 = take (length (cur_exprs s1)) (cur_exprs s3)
        /\ length (cur_exprs s4) = length (cur_exprs s1)
        /\ (forall k, k ≠ st_loc s3 -> exprs_at k s4 = exprs_at k s3)
        /\ (forall new, cur_exprs s3 = cur_exprs s1 ++ new ->
                        cur_exprs s4 = cur_exprs s1)).
Proof.
  assert (Hrun : visit_TernaryOp visit cond iftrue iffalse ln prefix s
    = if (length (cur_exprs s1) <? length (cur_exprs s3))%nat
      then visit_if visit ln cond iftrue (Some iffalse) prefix
             (set_exprs (<[st_loc s3 :=
                take (length (cur_exprs s3)
                      - (length (cur_exprs s3) - length (cur_exprs s1)))
                     (cur_exprs s3)]> (st_exprs s3)) s3)
      else Ok (Op "ite" [c; ift; iff] (Some ln)) s3).
  { unfold visit_TernaryOp, visit_expr, addlinemap, numexprs, rmlastexprs.
    unfold bind at 1. rewrite Hc.
    unfold bind at 1. unfold modify at 1.
    unfold bind at 1. unfold gets at 1.
    unfold bind at 1. rewrite Ht.
    unfold bind at 1. rewrite Hf.
    unfold bind at 1. unfold gets at 1.
    change (cur_exprs (set_linemap (st_linemap s1 ++ [(ln, prefix)]) s1))
      with (cur_exprs s1).
    destruct (length (cur_exprs s1) <? length (cur_exprs s3))%nat; reflexivity. }
  split.
  - intros Hle. rewrite Hrun.
    destruct (Nat.ltb_spec (length (cur_exprs s1)) (length (cur_exprs s3)));
      [lia | reflexivity].
  - intros Hlt. rewrite Hrun.
    destruct (Nat.ltb_spec (length (cur_exprs s1)) (length (cur_exprs s3)));
      [|lia].
    replace (length (cur_exprs s3) - (length (cur_exprs s3) - length (cur_exprs s1)))
      with (length (cur_exprs s1)) by lia.
    eexists. split; [reflexivity|].
    assert (Hcur : cur_exprs
              (set_exprs (<[st_loc s3 := take (length (cur_exprs s1)) (cur_exprs s3)]>
                            (st_exprs s3)) s3)
            = take (length (cur_exprs s1)) (cur_exprs s3))
      by (unfold cur_exprs at 1; simpl; apply exprs_at_set_exprs_eq).
    split; [reflexivity|]. split; [exact Hcur|].
    split; [rewrite Hcur, length_take; lia|].
    split; [intros k Hk; by apply exprs_at_set_exprs_ne|].
    intros new Hnew. rewrite Hcur, Hnew. by rewrite take_app_length.
Qed.

Lemma ternary_pure_or_split_witness :
  visit_TernaryOp (visit 5) (ID "c" 2) (ID "a" 2) (ID "b" 2) 2 "f." in_f_state
    = Ok (Op "ite" [Var "c" (Some 2); Var "a" (Some 2); Var "b" (Some 2)] (Some 2))
         (set_linemap [(2, "f.")] in_f_state)
  /\ exists s4,
      visit_TernaryOp (visit 5) (ID "c" 2) (UnaryOp "p++" (ID "i" 2) 2)
        (int_const "0" 2) 2 "f." in_f_state
        = visit_if (visit 5) 2 (ID "c" 2) (UnaryOp "p++" (ID "i" 2) 2)
            (Some (int_const "0" 2)) "f." s4
      /\ cur_exprs s4 = [].
Proof.
  split.
  - apply (proj1 (ternary_pure_or_split (visit 5) (ID "c" 2) (ID "a" 2) (ID "b" 2)
                     2 "f." in_f_state in_f_state
                     (set_linemap [(2, "f.")] in_f_state)
                     (set_linemap [(2, "f.")] in_f_state)
                     (Var "c" (Some 2)) (Var "a" (Some 2)) (Var "b" (Some 2))
                     eq_refl eq_refl eq_refl)).
    vm_compute. lia.
  - destruct (proj2 (ternary_pure_or_split (visit 5) (ID "c" 2)
                       (UnaryOp "p++" (ID "i" 2) 2) (int_const "0" 2)
                       2 "f." in_f_state in_f_state
                       (state_of (visit 5 (UnaryOp "p++" (ID "i" 2) 2) "f."
                                    (set_linemap [(2, "f.")] in_f_state)) init_state)
                       (state_of (visit 5 (UnaryOp "p++" (ID "i" 2) 2) "f."
                                    (set_linemap [(2, "f.")] in_f_state)) init_state)
                       (Var "c" (Some 2)) (Var "i" (Some 2)) (Const "0" (Some 2))
                       eq_refl eq_refl eq_refl))
      as (s4 & Hv & _ & _ & _ & _ & Hnew).
    + vm_compute. lia.
    + exists s4. split; [exact Hv|].
      apply (Hnew [upd_post_i]). reflexivity.
Defined.

(** [c ? i++ : 0] through the dispatcher: the increment scheduled while
    the branches were tried is gone from the location of the ternary, and
    is scheduled once, in the branch of the conditional. *)
Lemma ternary_effect_example :
  exists s',
    visit 6 ternary_effect "f." in_f_state = Ok PyNone s'
    /\ exprs_at 1%positive s' = []
    /\ exprs_at 2%positive s' = [upd_post_i]
    /\ exprs_at 3%positive s' = []
    /\ st_trans s'
       = [(1%positive, GCond (Var "c" (Some 2)), 2%positive);
          (1%positive, GNotCond (Var "c" (Some 2)), 3%positive);
          (2%positive, GTrue, 4%positive);
          (3%positive, GTrue, 4%positive)].
Proof. vm_compute. eexists; repeat split; reflexivity. Qed.

(** ** Input calls *)

Lemma re_findall_valid (k : nat) (fmt : string) :
  Forall valid_spec (re_findall_aux k fmt).
Proof.
  revert k. induction fmt as [|c fmt IH]; intros k; [constructor|].
  destruct k as [|k]; [|apply IH].
  change (re_findall_aux 0 (String c fmt))
    with (if Ascii.eqb c (Ascii.ascii_of_nat 37) then
            match List.find (fun a => String.prefix a fmt) scanf_alts with
            | Some a => findall_tuple a :: re_findall_aux (String.length a) fmt
            | None => re_findall_aux 0 fmt
            end
          else re_findall_aux 0 fmt).
  destruct (Ascii.eqb c (Ascii.ascii_of_nat 37)); [|apply IH].
  destruct (List.find _ scanf_alts) as [a|] eqn:Hfind; [|apply IH].
  constructor; [|apply IH].
  left. exists a. split; [|reflexivity].
  apply List.find_some in Hfind. apply Hfind.
Qed.

Lemma scanf_pad_valid (fs : list val) (n : nat) :
  Forall valid_spec fs -> Forall valid_spec (scanf_pad fs n).
Proof.
  intros Hfs. unfold scanf_pad. destruct (_ <? _)%nat; [|exact Hfs].
  apply Forall_app. split; [exact Hfs|].
  apply Forall_replicate. by right.
Qed.

Lemma scanf_pad_length (fs : list val) (n : nat) :
  n <= length (scanf_pad fs n).
Proof.
  unfold scanf_pad. destruct (Nat.ltb_spec (length fs) n); [|lia].
  rewrite length_app, length_replicate. lia.
Qed.

(** A valid specifier reduces to its text, and its type tag is the one of
    the text; it is never reported as invalid. *)
Lemma spec_head_valid (f : val) (s : state) :
  valid_spec f ->
  spec_head f s = Ok (PyStr (specifier_of f)) s
  /\ scanf_type (PyStr (specifier_of f)) = (spec_type (specifier_of f), false).
Proof.
  intros [(a & Ha & ->) | ->]; [|split; reflexivity].
  simpl in Ha.
  repeat (destruct Ha as [<- | Ha]; [split; reflexivity|]).
  destruct Ha.
Qed.

(** One turn of the loop on a supported target: a head-pop into the
    target, then the tail-advance, both at the current location. *)
Lemma scanf_pair_supported (ln : nat) (f a : val) (s : state) :
  valid_spec f -> scanf_target a ->
  exists s',
    scanf_pair ln (f, a) s = Ok tt s'
    /\ st_loc s' = st_loc s
    /\ cur_exprs s' = cur_exprs s ++ scanf_pair_updates ln (f, a)
    /\ (forall k, k ≠ st_loc s -> exprs_at k s' = exprs_at k s)
    /\ (exists w, st_warns s' = st_warns s ++ w).
Proof.
  intros Hf Ha.
  destruct (spec_head_valid f s Hf) as [Hhead Hty].
  unfold scanf_pair. unfold bind at 1. rewrite Hhead, Hty.
  unfold scanf_pair_updates. simpl fst. simpl snd.
  generalize (spec_type (specifier_of f)) as t. intros t.
  destruct Ha; unfold addwarn, addexpr; monad_unfold; simpl;
    (eexists; split; [reflexivity|]; simpl;
     split; [reflexivity|];
     split; [unfold cur_exprs, exprs_at; simpl;
             rewrite !lookup_insert_eq; simpl;
             rewrite <- ?app_assoc; reflexivity|];
     split; [intros k Hk; unfold exprs_at; simpl;
             rewrite !lookup_insert_ne by done; reflexivity|]).
  - by exists []; rewrite app_nil_r.
  - by exists []; rewrite app_nil_r.
  - by eexists.
  - by eexists.
Qed.

(** The loop of [visit_scanf] over supported targets. *)
Lemma scanf_loop_supported (ln : nat) (pairs : list (val * val)) (s : state) :
  Forall (fun fa => valid_spec fa.1 /\ scanf_target fa.2) pairs ->
  exists s',
    forM pairs (scanf_pair ln) s = Ok tt s'
    /\ st_loc s' = st_loc s
    /\ cur_exprs s' = cur_exprs s ++ flat_map (scanf_pair_updates ln) pairs
    /\ (forall k, k ≠ st_loc s -> exprs_at k s' = exprs_at k s)
    /\ (exists w, st_warns s' = st_warns s ++ w).
Proof.
  intros Hall. revert s.
  induction Hall as [|[f a] pairs [Hf Ha] _ IH]; intros s.
  - exists s. simpl. rewrite app_nil_r. repeat split; try reflexivity.
    by exists []; rewrite app_nil_r.
  - destruct (scanf_pair_supported ln f a s Hf Ha) as (s1 & H1 & Hl1 & He1 & Ho1 & w1 & Hw1).
    destruct (IH s1) as (s2 & H2 & Hl2 & He2 & Ho2 & w2 & Hw2).
    exists s2.
    split.
    { change (forM ((f, a) :: pairs) (scanf_pair ln) s)
        with (bind (scanf_pair ln (f, a)) (fun _ => forM pairs (scanf_pair ln)) s).
      unfold bind. rewrite H1. exact H2. }
    split; [congruence|].
    split; [rewrite He2, He1, <- app_assoc; reflexivity|].
    split.
    + intros k Hk. rewrite Ho2 by congruence. by apply Ho1.
    + exists (w1 ++ w2). rewrite Hw2, Hw1, <- app_assoc. reflexivity.
Qed.

Lemma Forall_zip_pairs {A B} (P : A -> Prop) (Q : B -> Prop)
  (l1 : list A) (l2 : list B) :
  Forall P l1 -> Forall Q l2 ->
  Forall (fun p => P p.1 /\ Q p.2) (zip l1 l2).
Proof.
  intros H1. revert l2. induction H1 as [|x l1 Hx _ IH]; intros l2 H2.
  - constructor.
  - destruct H2 as [|y l2 Hy H2]; simpl; constructor; auto.
Qed.

(** [visit_scanf] on the arguments it is given.  An input call whose
    first argument is a string literal, on
    supported targets: the specifiers of the format are paired with the
    arguments in order, padded with the wildcard when there are fewer
    specifiers than arguments and cut when there are more, so there is one
    pair per argument; every pair schedules its typed head-pop into the
    target followed by the tail-advance of the input stream, at the
    current location; a difference between the two counts is reported as
    a warning and the call does not fail. *)
Theorem scanf_literal_format (ln : nat) (value : string) (l : option nat)
  (rest : list val) (prefix : string) (s : state)
  (Hfirst : str_first value = Some dquote)
  (Hlast : str_last value = Some dquote)
  (Htargets : Forall scanf_target rest) :
  let fmt := str_strip_ends value in
  let fs := scanf_pad (re_findall fmt) (length rest) in
  exists s',
    visit_scanf ln (Const value l :: rest) prefix s = Ok PyNone s'
    /\ st_loc s' = st_loc s
    /\ cur_exprs s' = cur_exprs s ++ flat_map (scanf_pair_updates ln) (zip fs rest)
    /\ length (zip fs rest) = length rest
    /\ (forall k, k ≠ st_loc s -> exprs_at k s' = exprs_at k s)
    /\ (length (re_findall fmt) ≠ length rest ->
        In ("Mismatch between format and number of argument(s)of 'scanf' at line %s.",
            Some ln) (st_warns s')).
Proof.
  intros fmt fs.
  assert (Hpairs : Forall (fun fa => valid_spec fa.1 /\ scanf_target fa.2) (zip fs rest)).
  { apply Forall_zip_pairs; [|exact Htargets].
    apply scanf_pad_valid, re_findall_valid. }
  assert (Hlen : length (zip fs rest) = length rest).
  { rewrite length_zip_with. pose proof (scanf_pad_length (re_findall fmt) (length rest)).
    fold fs in H. lia. }
  unfold visit_scanf. rewrite Hfirst, Hlast.
  change (String.eqb dquote dquote && String.eqb dquote dquote) with true.
  cbv iota. unfold bind at 1. unfold ret at 1. cbv iota beta.
  fold fmt.
  destruct (Nat.eqb_spec (length (re_findall fmt)) (length rest)) as [Heq|Hne].
  - assert (Hfs : fs = re_findall fmt).
    { unfold fs, scanf_pad. rewrite Heq, Nat.ltb_irrefl. reflexivity. }
    simpl negb. cbv iota. rewrite <- Hfs.
    destruct (scanf_loop_supported ln (zip fs rest) s Hpairs)
      as (s1 & H1 & Hl1 & He1 & Ho1 & w & Hw).
    exists (set_linemap (st_linemap s1 ++ [(ln, prefix)]) s1).
    split; [unfold addlinemap; monad_unfold; rewrite H1; reflexivity|].
    split; [exact Hl1|]. split; [exact He1|]. split; [exact Hlen|].
    split; [exact Ho1|]. intros Hc. rewrite Hfs in Hc. by destruct (Hc Heq).
  - simpl negb. cbv iota. fold fs.
    set (s0 := set_warns
                 (st_warns s ++
                  [("Mismatch between format and number of argument(s)of 'scanf' at line %s.",
                    Some ln)]) s).
    destruct (scanf_loop_supported ln (zip fs rest) s0 Hpairs)
      as (s1 & H1 & Hl1 & He1 & Ho1 & w & Hw).
    exists (set_linemap (st_linemap s1 ++ [(ln, prefix)]) s1).
    split; [unfold addlinemap, addwarn; monad_unfold; fold s0; rewrite H1; reflexivity|].
    split; [exact Hl1|]. split; [exact He1|]. split; [exact Hlen|].
    split; [exact Ho1|]. intros _. simpl. rewrite Hw. unfold s0. simpl.
    apply in_or_app. left. apply in_or_app. right. by left.
Qed.

(** [scanf("%d %d", &x, &y)]: exactly two head-pop/tail-advance pairs,
    typed integer, in argument order, and no warning. *)
Lemma scanf_literal_format_witness :
  exists s',
    visit_scanf 3 [fmt_d_d; addr_of "x"; addr_of "y"] "main." init_state
      = Ok PyNone s'
    /\ cur_exprs s'
       = [("x", Op "ListHead" [Const "int" None; Var VAR_IN None] (Some 3));
          tail_advance 3;
          ("y", Op "ListHead" [Const "int" None; Var VAR_IN None] (Some 3));
          tail_advance 3].
Proof.
  destruct (scanf_literal_format 3 (dquote +:+ "%d %d" +:+ dquote) (Some 3)
              [addr_of "x"; addr_of "y"] "main." init_state eq_refl eq_refl)
    as (s' & Hv & _ & Hex & _).
  - repeat constructor.
  - exists s'. split; [exact Hv|]. rewrite Hex. reflexivity.
Defined.

(** More arguments than specifiers: the missing specifier is the
    wildcard, the pair is still scheduled, and the mismatch is reported. *)
Lemma scanf_padding_example :
  exists s',
    visit_scanf 3 [Const (dquote +:+ "%d" +:+ dquote) (Some 3);
                   addr_of "x"; addr_of "y"] "main." init_state
      = Ok PyNone s'
    /\ cur_exprs s'
       = [("x", Op "ListHead" [Const "int" None; Var VAR_IN None] (Some 3));
          tail_advance 3;
          ("y", Op "ListHead" [Const "*" None; Var VAR_IN None] (Some 3));
          tail_advance 3]
    /\ st_warns s'
       = [("Mismatch between format and number of argument(s)of 'scanf' at line %s.",
           Some 3)].
Proof. vm_compute. eexists; repeat split; reflexivity. Qed.

(** * Further properties of the visitor *)

(** ** Break *)

(** [break] is a no-op inside a switch-desugared region or when
    break/continue generation is suppressed.  Otherwise, without an
    enclosing loop it only records a warning; with one, it marks the use
    of non-local exits, jumps from the current location to the exit
    location of the innermost loop, whatever loops enclose that one, and
    leaves a fresh location as the current one. *)
Theorem break_applicability (ln : nat) (prefix : string) (s : state) :
  (st_inswitch s = true \/ st_nobcs s = true ->
   visit_Break ln prefix s = Ok PyNone s)
  /\ (st_inswitch s = false -> st_nobcs s = false -> st_loops s = [] ->
      visit_Break ln prefix s
        = Ok PyNone (set_warns (st_warns s
                       ++ [("'break' outside loop at line %s", Some ln)]) s))
  /\ (forall condloc exitloc nextloc outer,
      st_inswitch s = false -> st_nobcs s = false ->
      st_loops s = (condloc, exitloc, nextloc) :: outer ->
      exists s', visit_Break ln prefix s = Ok PyNone s'
        /\ st_trans s' = st_trans s ++ [(st_loc s, GTrue, exitloc)]
        /\ st_hasbcs s' = true
        /\ st_loc s' = st_nextloc s
        /\ st_loops s' = st_loops s
        /\ st_exprs s' = st_exprs s
        /\ st_warns s' = st_warns s).
Proof.
  unfold visit_Break, lastloop. monad_unfold.
  split; [|split].
  - intros [H | H]; rewrite H; [reflexivity|].
    destruct (st_inswitch s); reflexivity.
  - intros Hsw Hn Hl. rewrite Hsw, Hn. simpl. rewrite Hl. reflexivity.
  - intros c e nx outer Hsw Hn Hl. rewrite Hsw, Hn. simpl. rewrite Hl. simpl.
    eexists; split; [reflexivity|]. repeat split; simpl; auto.
Qed.

Lemma break_applicability_witness :
  visit_Break 7 "main.while.switch." switch_in_loop_state
    = Ok PyNone switch_in_loop_state
  /\ visit_Break 7 "main." init_state
       = Ok PyNone (set_warns [("'break' outside loop at line %s", Some 7)] init_state)
  /\ exists s', visit_Break 7 "main.while.while." nested_loops_state = Ok PyNone s'
       /\ st_trans s' = [(1%positive, GTrue, 9%positive)]
       /\ st_loc s' = 2%positive.
Proof.
  split; [|split].
  - apply (proj1 (break_applicability 7 "main.while.switch." switch_in_loop_state)).
    left. reflexivity.
  - apply (proj1 (proj2 (break_applicability 7 "main." init_state))); reflexivity.
  - destruct (proj2 (proj2 (break_applicability 7 "main.while.while." nested_loops_state))
                8%positive 9%positive None [(5%positive, 6%positive, None)]
                eq_refl eq_refl eq_refl)
      as (s' & Hv & Htr & _ & Hl & _).
    exists s'. split; [exact Hv|]. split; [exact Htr | exact Hl].
Defined.

(** ** Increments and decrements *)

(** A prefix [++]/[--] on a variable schedules [var := var op 1] at the
    current location, evaluates to the variable and leaves the
    pending-postfix counter alone. *)
Theorem prefix_incdec_schedules_update
  (visit : visitor) (op : string) (e : node) (ln : nat) (prefix : string)
  (s s1 : state) (v : string) (l : option nat)
  (Hop : op = "++" \/ op = "--")
  (He : visit e prefix s = Ok (Var v l) s1) :
  exists s2,
    visit_UnaryOp visit op e ln prefix s = Ok (Var v l) s2
    /\ st_loc s2 = st_loc s1
    /\ cur_exprs s2
       = cur_exprs s1 ++ [(v, Op (op_at1 op) [Var v l; Const "1" None] (Some ln))]
    /\ (forall k, k ≠ st_loc s1 -> exprs_at k s2 = exprs_at k s1)
    /\ st_postincdec s2 = st_postincdec s1.
Proof.
  unfold visit_UnaryOp, visit_expr. unfold bind at 1. rewrite He.
  destruct Hop as [-> | ->]; simpl; monad_unfold; simpl;
    (eexists; split; [reflexivity|]; repeat split; try reflexivity;
     [unfold cur_exprs at 1; simpl; apply exprs_at_set_exprs_eq
     |intros k Hk; by apply exprs_at_set_exprs_ne]).
Qed.

Lemma prefix_incdec_witness :
  exists s2,
    visit_UnaryOp (visit 5) "--" (ID "j" 2) 2 "f." in_f_state
      = Ok (Var "j" (Some 2)) s2
    /\ cur_exprs s2 = [("j", Op "-" [Var "j" (Some 2); Const "1" None] (Some 2))]
    /\ st_postincdec s2 = 0.
Proof.
  destruct (prefix_incdec_schedules_update (visit 5) "--" (ID "j" 2) 2 "f."
              in_f_state in_f_state "j" (Some 2) (or_intror eq_refl) eq_refl)
    as (s2 & Hv & _ & Hex & _ & Hk).
  exists s2. split; [exact Hv|]. split; [exact Hex | exact Hk].
Defined.

(** An increment or decrement, prefix or postfix, of anything that does
    not build to a variable (an array element, a constant, a dereference)
    is the unsupported-construct failure at the line of the operator. *)
Theorem incdec_non_variable_not_supported
  (visit : visitor) (op : string) (e : node) (ln : nat) (prefix : string)
  (s s1 : state) (x : val)
  (Hop : In op ["++"; "--"; "p++"; "p--"])
  (He : visit e prefix s = Ok x s1)
  (Hx : is_Var x = false) :
  exists msg, visit_UnaryOp visit op e ln prefix s
                = Err (NotSupported msg [] (Some ln)).
Proof.
  unfold visit_UnaryOp, visit_expr. unfold bind at 1. rewrite He.
  simpl in Hop.
  destruct Hop as [<- | [<- | [<- | [<- | []]]]]; simpl;
    destruct x; try discriminate Hx; by eexists.
Qed.

Lemma incdec_non_variable_witness :
  exists msg,
    visit_UnaryOp (visit 5) "p++" (ArrayRef (ID "a" 2) (ID "i" 2) 2) 2 "f." in_f_state
      = Err (NotSupported msg [] (Some 2)).
Proof.
  apply (incdec_non_variable_not_supported (visit 5) "p++"
           (ArrayRef (ID "a" 2) (ID "i" 2) 2) 2 "f." in_f_state in_f_state
           (Op "[]" [Var "a" (Some 2); Var "i" (Some 2)] (Some 2))).
  - simpl. auto.
  - reflexivity.
  - reflexivity.
Defined.

(** ** Assignments *)

(** The first steps of [visit_Assignment], once both sides have been
    visited. *)
Ltac assignment_start Hl Hr :=
  unfold visit_Assignment, visit_expr, addlinemap;
  unfold bind at 1; rewrite Hl;
  unfold bind at 1; unfold modify at 1;
  unfold bind at 1; unfold gets at 1;
  unfold bind at 1; unfold modify at 1;
  unfold bind at 1; simpl st_postincdec; rewrite Hr.

Lemma is_expr_facts (v : val) :
  is_expr v = true ->
  truthy v = true
  /\ (forall s, py_copy v s = Ok v s)
  /\ (forall s, val_line v s = Ok (expr_line v) s)
  /\ (forall s, match v with
                | PyList l0 => match last l0 with
                               | Some r => ret r
                               | None => raise (PyError "IndexError")
                               end
                | _ => ret v
                end s = Ok v s).
Proof. destruct v; try discriminate; repeat split; reflexivity. Qed.

Lemma cur_exprs_addexpr (name : string) (e : val) (idx : option nat)
  (s s' : state) :
  addexpr name e idx s = Ok tt s' ->
  cur_exprs s'
  = placed_ahead_of_last (default 0 idx) (name, e) (cur_exprs s)
  /\ st_loc s' = st_loc s
  /\ st_postincdec s' = st_postincdec s.
Proof.
  unfold addexpr, modify. intros [= <-].
  split; [|split; reflexivity].
  unfold cur_exprs at 1. unfold exprs_at at 1. simpl.
  rewrite lookup_insert_eq. simpl.
  destruct idx as [k|]; simpl; [reflexivity|].
  unfold placed_ahead_of_last. rewrite Nat.sub_0_r, take_ge, drop_ge by lia.
  reflexivity.
Qed.



(** An assignment operator that is neither [=] nor a two-character
    [X=] (the shifts [<<=] and [>>=], for instance) is the
    unsupported-construct failure at the line of the assignment, whatever
    the two sides are. *)
Theorem assignment_operator_not_supported
  (visit : visitor) (op : string) (lv rv : node) (ln : nat) (prefix : string)
  (s s1 s2 : state) (lvalue rvalue : val)
  (Hne : op ≠ "=")
  (Hshape : String.length op ≠ 2 \/ op_at1 op ≠ "=")
  (Hl : visit lv prefix s = Ok lvalue s1)
  (Hr : visit rv prefix
          (set_postincdec 0 (set_linemap (st_linemap s1 ++ [(ln, prefix)]) s1))
        = Ok rvalue s2) :
  visit_Assignment visit op lv rv ln prefix s
  = Err (NotSupported "Assignment operator: '%s'" [PyStr op] (Some ln)).
Proof.
  assignment_start Hl Hr.
  apply String.eqb_neq in Hne. rewrite Hne.
  assert (Hc : (String.length op =? 2)%nat && String.eqb (op_at1 op) "=" = false).
  { destruct Hshape as [H | H].
    - apply Nat.eqb_neq in H. rewrite H. reflexivity.
    - apply String.eqb_neq in H. rewrite H. apply andb_false_r. }
  rewrite Hc. reflexivity.
Qed.

Lemma assignment_operator_witness :
  visit_Assignment (visit 5) "<<=" (ID "x" 2) (int_const "1" 2) 2 "f." in_f_state
  = Err (NotSupported "Assignment operator: '%s'" [PyStr "<<="] (Some 2)).
Proof.
  apply (assignment_operator_not_supported (visit 5) "<<=" (ID "x" 2)
           (int_const "1" 2) 2 "f." in_f_state in_f_state
           (set_postincdec 0 (set_linemap (st_linemap in_f_state ++ [(2, "f.")])
                                in_f_state))
           (Var "x" (Some 2)) (Const "1" (Some 2))).
  - discriminate.
  - left. simpl. lia.
  - reflexivity.
  - reflexivity.
Defined.





(** When the right-hand side yields no value (a call to [printf] or
    [scanf], which build to [None]), the variable is assigned the unknown
    constant ['?'] at the line of the assignment. *)
Theorem assignment_of_nothing_is_unknown
  (visit : visitor) (lv rv : node) (ln : nat) (prefix : string)
  (s s1 s2 : state) (x : string) (l : option nat) (rvalue : val)
  (Hl : visit lv prefix s = Ok (Var x l) s1)
  (Hr : visit rv prefix
          (set_postincdec 0 (set_linemap (st_linemap s1 ++ [(ln, prefix)]) s1))
        = Ok rvalue s2)
  (Hfalsy : truthy rvalue = false) :
  exists s3,
    visit_Assignment visit "=" lv rv ln prefix s = Ok (Var x l) s3
    /\ cur_exprs s3
       = placed_ahead_of_last (st_postincdec s2) (x, Const "?" (Some ln))
           (cur_exprs s2)
    /\ st_postincdec s3 = st_postincdec s1.
Proof.
  assignment_start Hl Hr. rewrite Hfalsy.
  monad_unfold; simpl.
  destruct (st_postincdec s2) as [|k] eqn:Hk;
    (eexists; split; [reflexivity|]; split; [|reflexivity];
     unfold cur_exprs at 1; unfold exprs_at at 1; simpl;
     rewrite lookup_insert_eq; simpl;
     unfold placed_ahead_of_last;
     rewrite ?Nat.sub_0_r, ?take_ge, ?drop_ge by (unfold cur_exprs, exprs_at; simpl; lia);
     reflexivity).
Qed.

Lemma assignment_of_nothing_witness :
  exists s3,
    visit_Assignment (visit 6) "=" (ID "n" 2)
      (FuncCall (ID "printf" 2) (Some (ExprList [Constant "string" "hi" 2] 2)) 2)
      2 "main." in_f_state = Ok (Var "n" (Some 2)) s3
    /\ cur_exprs s3
       = [(VAR_OUT,
           Op "StrAppend"
             [Var VAR_OUT None; Op "StrFormat" [Const "hi" (Some 2)] (Some 2)]
             (Some 2));
          ("n", Const "?" (Some 2))].
Proof.
  destruct (assignment_of_nothing_is_unknown (visit 6) (ID "n" 2)
              (FuncCall (ID "printf" 2) (Some (ExprList [Constant "string" "hi" 2] 2)) 2)
              2 "main." in_f_state in_f_state
              (state_of
                 (visit 6
                    (FuncCall (ID "printf" 2)
                       (Some (ExprList [Constant "string" "hi" 2] 2)) 2)
                    "main."
                    (set_postincdec 0
                       (set_linemap (st_linemap in_f_state ++ [(2, "main.")])
                          in_f_state)))
                 init_state)
              "n" (Some 2) PyNone eq_refl eq_refl eq_refl)
    as (s3 & Hv & Hex & _).
  exists s3. split; [exact Hv|]. rewrite Hex. reflexivity.
Defined.

(** ** Arrays *)

(** What [visit_ArrayRef] returns when it returns: an index operation. *)
Lemma visit_ArrayRef_inv (visit : visitor) (name sub : node) (ln : nat)
  (prefix : string) (s s' : state) (r : val) :
  visit_ArrayRef visit name sub ln prefix s = Ok r s' ->
  exists args, r = Op "[]" args (Some ln).
Proof.
  unfold visit_ArrayRef, visit_expr. unfold bind at 1.
  destruct (visit name prefix s) as [nm s1|]; [|discriminate].
  destruct (is_Var nm); [|discriminate].
  unfold bind. destruct (visit sub prefix s1); [|discriminate].
  unfold ret. intros [= <- _]. by eexists.
Qed.

(** The base of an index expression must build to a variable: anything
    else is the unsupported-construct failure (which carries no line). *)
Theorem array_base_must_be_variable
  (visit : visitor) (name sub : node) (ln : nat) (prefix : string)
  (s s1 : state) (nm : val)
  (Hn : visit name prefix s = Ok nm s1)
  (Hv : is_Var nm = false) :
  visit_ArrayRef visit name sub ln prefix s
  = Err (NotSupported "ArrayName: '%s'" [nm] None).
Proof.
  unfold visit_ArrayRef, visit_expr. unfold bind at 1. rewrite Hn, Hv.
  reflexivity.
Qed.

Lemma array_base_witness :
  visit_ArrayRef (visit 5) (int_const "3" 2) (ID "i" 2) 2 "f." in_f_state
  = Err (NotSupported "ArrayName: '%s'" [Const "3" (Some 2)] None).
Proof.
  apply (array_base_must_be_variable (visit 5) (int_const "3" 2) (ID "i" 2) 2 "f."
           in_f_state in_f_state (Const "3" (Some 2))); reflexivity.
Defined.

(** Indexing an index expression ([a[i][j]]) never builds: with whatever
    fuel, base, subscripts and state, the visit ends in a failure. *)
Theorem nested_index_never_builds (fuel : nat) (base sub1 sub2 : node)
  (l1 l2 : nat) (prefix : string) (s : state) :
  exists e,
    visit fuel (ArrayRef (ArrayRef base sub1 l1) sub2 l2) prefix s = Err e.
Proof.
  destruct fuel as [|fuel]; [by eexists|].
  simpl. unfold visit_ArrayRef at 1. unfold visit_expr at 1. unfold bind at 1.
  destruct (visit fuel (ArrayRef base sub1 l1) prefix s) as [nm s1|e] eqn:Hin;
    [|by eexists].
  destruct fuel as [|fuel]; [discriminate Hin|].
  simpl in Hin. apply visit_ArrayRef_inv in Hin as [args ->].
  simpl. by eexists.
Qed.

Lemma string_length_app (a b : string) :
  String.length (a +:+ b) = String.length a + String.length b.
Proof. induction a as [|c a IH]; simpl; [reflexivity|]. by rewrite IH. Qed.





(** The failure of an array of arrays whose inner declarator builds is
    the unsupported-construct failure at the line of the outer one. *)
Lemma nested_array_decl_example :
  visit 6 (ArrayDecl
             (ArrayDecl (TypeDecl (Some "a") (IdentifierType ["int"] 2) 2)
                (Some (int_const "2" 2)) 2)
             (Some (int_const "3" 2)) 2) "f." in_f_state
  = Err (NotSupported "Double Array" [] (Some 2)).
Proof. reflexivity. Qed.

(** ** Declarations *)

(** A declaration outside a parameter list whose name already has a type
    in the current scope is dropped: the visit yields [None] and ends in
    the state the visit of the initializer left, with the warning added.
    The declaration itself registers no type and schedules no update of
    its name; what the visits of the declarator and of the initializer
    did (an increment inside the initializer, say) stays. *)
Theorem duplicate_declaration_dropped
  (visit : visitor) (type : node) (init : option node) (ln : nat)
  (prefix : string) (s s1 s2 : state) (n : string) (ty dim ini t0 : val)
  (Hty : visit type prefix s = Ok (PyTuple [PyStr n; ty; dim]) s1)
  (Hini : visit_expr_opt visit init prefix
            (set_linemap (st_linemap s1 ++ [(ln, prefix)]) s1) = Ok ini s2)
  (Hmode : st_fncdef s2 = false)
  (Hdup : st_types s2 !! (st_fnc s2, n) = Some t0) :
  visit_Decl visit type init ln prefix s
  = Ok PyNone
      (set_warns (st_warns s2
                  ++ [("Ignored global definition '%s' on line %s.", Some ln)]) s2).
Proof.
  unfold visit_Decl. unfold bind at 1. rewrite Hty.
  unfold bind at 1. simpl unpack3. unfold ret at 1.
  unfold bind at 1. unfold addlinemap at 1. unfold modify at 1.
  unfold bind at 1. rewrite Hini.
  unfold bind at 1. unfold gets at 1. rewrite Hmode.
  unfold bind at 1. simpl as_str. unfold ret at 1.
  unfold addtype. rewrite Hdup. reflexivity.
Qed.

Lemma duplicate_declaration_witness :
  visit_Decl (visit 5) (TypeDecl (Some "x") (IdentifierType ["int"] 2) 2)
    (Some (int_const "5" 2)) 2 EmptyString after_global_x
  = Ok PyNone
      (set_warns [("Ignored global definition '%s' on line %s.", Some 2)]
         (set_linemap [(1, EmptyString); (2, EmptyString)] after_global_x)).
Proof.
  apply (duplicate_declaration_dropped (visit 5)
           (TypeDecl (Some "x") (IdentifierType ["int"] 2) 2)
           (Some (int_const "5" 2)) 2 EmptyString after_global_x
           after_global_x
           (set_linemap [(1, EmptyString); (2, EmptyString)] after_global_x)
           "x" (PyStr "int") PyNone (Const "5" (Some 2)) (PyStr "int"));
    reflexivity.
Defined.

(** A declaration with both a dimension and an initializer
    ([int a[3] = {1};]) is the unsupported-construct failure at its line,
    in a parameter list as well as outside one (where its name must be
    new, or the declaration is dropped first). *)
Theorem array_init_and_create_not_supported
  (visit : visitor) (type : node) (init : option node) (ln : nat)
  (prefix : string) (s s1 s2 : state) (n : string) (ty dim ini : val)
  (Hty : visit type prefix s = Ok (PyTuple [PyStr n; ty; dim]) s1)
  (Hini : visit_expr_opt visit init prefix
            (set_linemap (st_linemap s1 ++ [(ln, prefix)]) s1) = Ok ini s2)
  (Hnew : st_fncdef s2 = true \/ st_types s2 !! (st_fnc s2, n) = None)
  (Hi : truthy ini = true)
  (Hd : truthy dim = true) :
  visit_Decl visit type init ln prefix s
  = Err (NotSupported "Array Init & Create together" [] (Some ln)).
Proof.
  unfold visit_Decl. unfold bind at 1. rewrite Hty.
  unfold bind at 1. simpl unpack3. unfold ret at 1.
  unfold bind at 1. unfold addlinemap at 1. unfold modify at 1.
  unfold bind at 1. rewrite Hini.
  unfold bind at 1. unfold gets at 1. rewrite Hi, Hd. simpl andb.
  destruct (st_fncdef s2) eqn:Hmode; [reflexivity|].
  destruct Hnew as [Hnew | Hnew]; [discriminate Hnew|].
  unfold bind at 1. simpl as_str. unfold ret at 1.
  unfold addtype. rewrite Hnew. reflexivity.
Qed.

Lemma array_init_and_create_witness :
  visit 6 decl_array_init "f." in_f_state
  = Err (NotSupported "Array Init & Create together" [] (Some 2)).
Proof.
  apply (array_init_and_create_not_supported (visit 5)
           (ArrayDecl (TypeDecl (Some "a") (IdentifierType ["int"] 2) 2)
              (Some (int_const "3" 2)) 2)
           (Some (InitList (Some [int_const "1" 2]) 2)) 2 "f." in_f_state
           (state_of (visit 5 (ArrayDecl (TypeDecl (Some "a") (IdentifierType ["int"] 2) 2)
                                 (Some (int_const "3" 2)) 2) "f." in_f_state)
                     init_state)
           (state_of
              (visit_expr_opt (visit 5) (Some (InitList (Some [int_const "1" 2]) 2)) "f."
                 (set_linemap [(2, "f."); (2, "f.")] in_f_state))
              init_state)
           "a" (PyStr "int[]") (Const "3" (Some 2))
           (Op "ArrayInit" [Const "1" (Some 2)] (Some 2))).
  - reflexivity.
  - reflexivity.
  - right. reflexivity.
  - reflexivity.
  - reflexivity.
Defined.

(** ** Type names *)

Lemma synonym_find_none (l : list (string * string)) (name : string) :
  List.find (fun p => String.eqb (fst p) name) l = None ->
  str_in name (map fst l) = false.
Proof.
  induction l as [|[k v] l IH]; [reflexivity|].
  cbn [List.find map fst str_in existsb]. intros H.
  destruct (String.eqb k name) eqn:Hk; [discriminate H|].
  rewrite String.eqb_sym, Hk. exact (IH H).
Qed.

Lemma synonym_find_some (l : list (string * string)) (name : string)
  (p : string * string) :
  List.find (fun p => String.eqb (fst p) name) l = Some p ->
  In p l /\ str_in name (map fst l) = true.
Proof.
  induction l as [|[k v] l IH]; [discriminate|].
  cbn [List.find map fst str_in existsb]. intros H.
  destruct (String.eqb k name) eqn:Hk.
  - injection H as <-. rewrite String.eqb_sym, Hk. split; [by left|reflexivity].
  - destruct (IH H) as [Hin Hs]. split; [by right|].
    unfold str_in in Hs. rewrite Hs. apply orb_true_r.
Qed.

(** The name [visit_IdentifierType] yields is never one of the synonym
    spellings: a spelling in the table is replaced by its base type, and
    the base types are not in the table. *)
Theorem identifier_type_is_canonical (names : list string) (s : state) :
  exists t,
    visit_IdentifierType names s = Ok (PyStr t) s
    /\ str_in t synonym_keys = false
    /\ (str_in (join_underscore names) synonym_keys = false ->
        t = join_underscore names).
Proof.
  unfold visit_IdentifierType, ret.
  set (name := join_underscore names).
  eexists. split; [reflexivity|].
  destruct (List.find _ TYPE_SYNONYMS) as [p|] eqn:Hf.
  - apply synonym_find_some in Hf as [Hin Hkey].
    split.
    + cbn [fmap option_fmap option_map default].
      unfold TYPE_SYNONYMS in Hin. simpl in Hin.
      repeat (destruct Hin as [<- | Hin]; [reflexivity|]). destruct Hin.
    + unfold synonym_keys. rewrite Hkey. discriminate.
  - apply synonym_find_none in Hf. split; [exact Hf|reflexivity].
Qed.

(** ** Return *)

(** A [return] schedules exactly one update, of the return-value
    variable, at the current location: the returned expression, or the
    constant ['top'] at the line of the statement when nothing is
    returned. *)
Theorem return_schedules_ret
  (visit : visitor) (e : option node) (ln : nat) (prefix : string)
  (s s1 : state) (v : val)
  (He : visit_expr_opt visit e prefix s = Ok v s1) :
  exists s2,
    visit_Return visit e ln prefix s = Ok PyNone s2
    /\ st_loc s2 = st_loc s1
    /\ cur_exprs s2
       = cur_exprs s1
         ++ [(VAR_RET, if truthy v then v else Const "top" (Some ln))]
    /\ (forall k, k ≠ st_loc s1 -> exprs_at k s2 = exprs_at k s1)
    /\ st_trans s2 = st_trans s1.
Proof.
  unfold visit_Return. unfold bind at 1. rewrite He.
  unfold addlinemap, addexpr. monad_unfold. simpl.
  eexists. split; [reflexivity|].
  repeat split; try reflexivity.
  - unfold cur_exprs at 1. unfold exprs_at at 1. simpl.
    by rewrite lookup_insert_eq.
  - intros k Hk. unfold exprs_at. simpl. by rewrite lookup_insert_ne.
Qed.

Lemma return_schedules_ret_witness :
  exists s2,
    visit_Return (visit 5) None 4 "main." in_f_state = Ok PyNone s2
    /\ cur_exprs s2 = [(VAR_RET, Const "top" (Some 4))].
Proof.
  destruct (return_schedules_ret (visit 5) None 4 "main." in_f_state in_f_state
              PyNone eq_refl) as (s2 & Hv & _ & Hex & _).
  exists s2. split; [exact Hv | exact Hex].
Defined.

(** ** Function calls *)

(** A call to a function that is neither [scanf] nor [printf], has not
    been declared in the program and is not one of the library functions
    is the unsupported-construct failure at the line of the call. *)
Theorem unknown_function_not_supported
  (visit : visitor) (name : node) (args : option node) (ln : nat)
  (prefix : string) (s s1 s2 : state) (f : string) (l : option nat) (r : val)
  (Hn : visit name prefix s = Ok (Var f l) s1)
  (Ha : visit_opt visit args prefix
          (set_linemap (st_linemap s1 ++ [(ln, prefix)]) s1) = Ok r s2)
  (Hr : is_list r = true \/ truthy r = false)
  (Hio : str_in f ["scanf"; "printf"] = false)
  (Hprog : str_in f (fnc_names s2) = false)
  (Hlib : str_in f LIB_FNCS = false) :
  visit_FuncCall visit name args ln prefix s
  = Err (NotSupported "Unsupported function call: '%s'" [PyStr f] (Some ln)).
Proof.
  unfold visit_FuncCall, visit_expr. unfold bind at 1. rewrite Hn.
  unfold bind at 1. unfold addlinemap at 1. unfold modify at 1.
  unfold bind at 1. rewrite Ha.
  simpl in Hio. rewrite orb_false_r in Hio.
  apply orb_false_iff in Hio as [Hs Hp].
  rewrite String.eqb_sym in Hs. rewrite String.eqb_sym in Hp.
  assert (Hargs : exists la, (if truthy r
                  then match r with
                       | PyList l0 | PyTuple l0 => ret l0
                       | _ => raise (PyError "TypeError")
                       end
                  else ret []) s2 = Ok la s2).
  { destruct Hr as [Hr | Hr].
    - destruct r; try discriminate Hr. destruct l0; by eexists.
    - rewrite Hr. by eexists. }
  destruct Hargs as [la Hla].
  unfold bind at 1. rewrite Hla.
  unfold bind at 1. unfold gets at 1.
  rewrite String.eqb_sym, Hs. rewrite String.eqb_sym, Hp.
  rewrite Hprog, Hlib. reflexivity.
Qed.

Lemma unknown_function_witness :
  visit_FuncCall (visit 5) (ID "strlen" 2) (Some (ExprList [ID "s" 2] 2)) 2 "main."
    in_f_state
  = Err (NotSupported "Unsupported function call: '%s'" [PyStr "strlen"] (Some 2)).
Proof.
  apply (unknown_function_not_supported (visit 5) (ID "strlen" 2)
           (Some (ExprList [ID "s" 2] 2)) 2 "main." in_f_state in_f_state
           (set_linemap [(2, "main."); (2, "main.")] in_f_state)
           "strlen" (Some 2) (PyList [Var "s" (Some 2)]));
    try reflexivity.
  left. reflexivity.
Defined.



(** ** Output calls, whatever the arguments *)

(** [visit_printf] never fails and always schedules exactly one update,
    of the output stream, at the current location.  With a literal first
    argument that is the format and no warning is recorded; with no
    argument, or a first argument that is not a literal, the format is
    the constant ['?'], every argument (the first included) stays an
    argument of [StrFormat], and one warning is recorded. *)
Theorem printf_always_one_update (ln : nat) (args : list val) (prefix : string)
  (s : state) :
  exists s' fmt rest,
    visit_printf ln args prefix s = Ok PyNone s'
    /\ st_loc s' = st_loc s
    /\ cur_exprs s'
       = cur_exprs s
         ++ [(VAR_OUT,
              Op "StrAppend"
                [Var VAR_OUT None; Op "StrFormat" (fmt :: rest) (Some ln)]
                (Some ln))]
    /\ match args with
       | Const v l :: r =>
           fmt = Const (normalize_format v) l /\ rest = r
           /\ st_warns s' = st_warns s
       | _ =>
           fmt = Const "?" (Some ln) /\ rest = args
           /\ length (st_warns s') = S (length (st_warns s))
       end.
Proof.
  unfold visit_printf, addexpr, addlinemap, addwarn. monad_unfold.
  destruct args as [|a r]; [|destruct a]; simpl;
    (eexists _, _, _; split; [reflexivity|]; split; [reflexivity|];
     split; [unfold cur_exprs at 1; unfold exprs_at at 1; simpl;
             rewrite lookup_insert_eq; reflexivity|];
     repeat split; try reflexivity;
     simpl; rewrite length_app; simpl; lia).
Qed.

(** ** Input calls: failures and warnings *)

(** [scanf] without any argument never builds: after the warning the
    format is read before it was ever assigned. *)
Theorem scanf_without_arguments_fails (ln : nat) (prefix : string) (s : state) :
  exists e, visit_scanf ln [] prefix s = Err e.
Proof. by eexists. Qed.

(** With a string literal as format, a first target that is a constant,
    bare or behind the address-of operator ([scanf("%d", 5)],
    [scanf("%d", &5)]), is the unsupported-construct failure at the line
    of the call, whatever the format and the remaining arguments. *)
Theorem scanf_constant_target_not_supported
  (ln : nat) (value : string) (l : option nat) (a : val) (more : list val)
  (v : string) (la l' : option nat) (prefix : string) (s : state)
  (Hfirst : str_first value = Some dquote)
  (Hlast : str_last value = Some dquote)
  (Ha : a = Const v la \/ a = Op "&" [Const v la] l') :
  visit_scanf ln (Const value l :: a :: more) prefix s
  = Err (NotSupported "Argument to scanf: '%s'" [Const v la] (Some ln)).
Proof.
  unfold visit_scanf. rewrite Hfirst, Hlast.
  change (String.eqb dquote dquote && String.eqb dquote dquote) with true.
  cbv iota. unfold bind at 1. unfold ret at 1. cbv iota beta.
  set (fmt := str_strip_ends value).
  remember (scanf_pad (re_findall fmt) (length (a :: more))) as fs eqn:Efs.
  assert (Hvalid : Forall valid_spec fs)
    by (rewrite Efs; apply scanf_pad_valid, re_findall_valid).
  assert (Hlen : 1 <= length fs)
    by (rewrite Efs;
        pose proof (scanf_pad_length (re_findall fmt) (length (a :: more))) as H;
        simpl in H; simpl; lia).
  destruct fs as [|f0 fs']; [simpl in Hlen; lia|].
  apply Forall_cons in Hvalid as [Hf0 _].
  assert (Hpair : forall s0, scanf_pair ln (f0, a) s0
    = Err (NotSupported "Argument to scanf: '%s'" [Const v la] (Some ln))).
  { intros s0. destruct (spec_head_valid f0 s0 Hf0) as [Hhead Hty].
    unfold scanf_pair. unfold bind at 1. rewrite Hhead, Hty.
    destruct Ha as [-> | ->]; reflexivity. }
  assert (Hloop : forall s0, forM (zip (f0 :: fs') (a :: more)) (scanf_pair ln) s0
    = Err (NotSupported "Argument to scanf: '%s'" [Const v la] (Some ln))).
  { intros s0.
    change (forM (zip (f0 :: fs') (a :: more)) (scanf_pair ln) s0)
      with (bind (scanf_pair ln (f0, a))
              (fun _ => forM (zip fs' more) (scanf_pair ln)) s0).
    unfold bind. rewrite Hpair. reflexivity. }
  destruct (Nat.eqb_spec (length (re_findall fmt)) (length (a :: more))) as [Heq|Hne].
  - assert (Hsame : re_findall fmt = f0 :: fs').
    { rewrite Efs. unfold scanf_pad. rewrite Heq, Nat.ltb_irrefl. reflexivity. }
    simpl negb. cbv iota. unfold bind at 1. unfold ret at 1. rewrite Hsame.
    unfold bind at 1. rewrite Hloop. reflexivity.
  - simpl negb. cbv iota.
    unfold bind at 1. unfold bind at 1. unfold addwarn, modify. unfold ret at 1.
    unfold bind at 1. rewrite Hloop. reflexivity.
Qed.

Lemma scanf_constant_target_witness :
  visit_scanf 3 [fmt_d_d; Const "5" (Some 3); addr_of "y"] "main." init_state
  = Err (NotSupported "Argument to scanf: '%s'" [Const "5" (Some 3)] (Some 3)).
Proof.
  apply (scanf_constant_target_not_supported 3 (dquote +:+ "%d %d" +:+ dquote)
           (Some 3) (Const "5" (Some 3)) [addr_of "y"] "5" (Some 3) None
           "main." init_state eq_refl eq_refl).
  left. reflexivity.
Defined.






(** ** Expression and initializer lists *)

Lemma visit_ExprList_length_witness :
  length [Var "a" (Some 2); Var "b" (Some 2)]
  = min (length [ID "a" 2; ID "b" 2; ID "c" 2]) (String.length "f.").
Proof.
  apply (visit_ExprList_length (visit 5) [ID "a" 2; ID "b" 2; ID "c" 2] 2 "f."
           in_f_state (set_linemap [(2, "f.")] in_f_state)
           [Var "a" (Some 2); Var "b" (Some 2)]).
  reflexivity.
Defined.

Lemma mapM_length {A B} (f : A -> M B) (l : list A) (s s' : state) (r : list B) :
  mapM f l s = Ok r s' -> length r = length l.
Proof.
  revert s s' r. induction l as [|x l IH]; intros s s' r; simpl.
  - unfold ret. intros [= <- _]. reflexivity.
  - unfold bind at 1. destruct (f x s) as [y s1|]; [|discriminate].
    unfold bind at 1. destruct (mapM f l s1) as [ys s2|] eqn:Hys; [|discriminate].
    unfold ret. intros [= <- _]. simpl. f_equal. eapply IH, Hys.
Qed.

Lemma chars_length (s : string) : length (chars s) = String.length s.
Proof. induction s as [|c s IH]; simpl; [reflexivity|]. by rewrite IH. Qed.

(** An initializer list builds to [ArrayInit] over its elements in order,
    but only as many of them as the scope prefix has characters: the
    elements beyond that are neither visited nor kept. *)
Theorem visit_InitList_length (visit : visitor) (exprs : list node) (ln : nat)
  (prefix : string) (s s' : state) (r : val)
  (Hv : visit_InitList visit (Some exprs) ln prefix s = Ok r s') :
  exists es,
    r = Op "ArrayInit" es (Some ln)
    /\ length es = min (length exprs) (String.length prefix).
Proof.
  unfold visit_InitList, map_visit_expr in Hv. simpl default in Hv.
  unfold bind at 1 in Hv.
  destruct (mapM _ _ s) as [es s1|] eqn:Hes; [|discriminate Hv].
  unfold addlinemap in Hv. monad_unfold. injection Hv as <- _.
  exists es. split; [reflexivity|].
  apply mapM_length in Hes. rewrite Hes, length_zip_with, chars_length.
  reflexivity.
Qed.

Lemma visit_InitList_length_witness :
  exists es,
    Op "ArrayInit" [Const "1" (Some 2); Const "2" (Some 2)] (Some 2)
      = Op "ArrayInit" es (Some 2)
    /\ length es = min (length [int_const "1" 2; int_const "2" 2; int_const "3" 2])
                       (String.length "f.").
Proof.
  apply (visit_InitList_length (visit 5)
           [int_const "1" 2; int_const "2" 2; int_const "3" 2] 2 "f."
           in_f_state (set_linemap [(2, "f.")] in_f_state)).
  reflexivity.
Defined.

(** ** Switch: rewriting and the inside-switch flag *)

(** A body made of case groups followed by at most one default group is
    rewritten into the chain of conditionals on [cond == e], in the order
    of the groups, with the default group as the last else-branch; without
    any group there is nothing to visit. *)
Theorem convert_well_formed (cond : node) (cases : list (node * list node * nat))
  (dflt : option (list node * nat)) :
  convert cond (switch_items cases dflt) = inr (if_chain cond cases dflt).
Proof.
  unfold switch_items.
  induction cases as [|[[e stmts] ln] cases IH]; simpl.
  - destruct dflt as [[stmts ln]|]; reflexivity.
  - rewrite IH. reflexivity.
Qed.

(** The rewritten body of a switch is visited under the prefix extended
    with ["switch."] and with the inside-switch flag set; afterwards the
    flag is back to what it was before the body, whatever the body did to
    it, and the switch yields what the body yielded. *)
Theorem switch_visits_body_inside_switch
  (visit : visitor) (cond : node) (items : list node) (cl ln : nat)
  (prefix : string) (s s1 s2 : state) (c res : val) (st : node)
  (Hc : visit cond (prefix +:+ "switch.") s = Ok c s1)
  (Hconv : convert cond items = inr (Some st))
  (Hb : visit st (prefix +:+ "switch.")
          (set_inswitch true
             (set_linemap (st_linemap s1 ++ [(ln, prefix +:+ "switch.")]) s1))
        = Ok res s2) :
  exists s3,
    visit_Switch visit cond (Compound (Some items) cl) ln prefix s = Ok res s3
    /\ st_inswitch s3 = st_inswitch s1
    /\ st_exprs s3 = st_exprs s2
    /\ st_trans s3 = st_trans s2
    /\ st_loc s3 = st_loc s2.
Proof.
  unfold visit_Switch, visit_expr. unfold bind at 1. rewrite Hc.
  unfold bind at 1. unfold addlinemap at 1. unfold modify at 1.
  rewrite Hconv.
  unfold bind at 1. unfold gets at 1.
  unfold bind at 1. unfold modify at 1.
  unfold bind at 1. simpl st_inswitch. rewrite Hb.
  unfold addlinemap. monad_unfold.
  eexists. split; [reflexivity|]. repeat split; reflexivity.
Qed.

Lemma switch_visits_body_witness :
  exists s3,
    visit_Switch (visit 8) (ID "x" 1) (Compound (Some switch_items_well_formed) 1)
      1 "main." init_state = Ok PyNone s3
    /\ st_inswitch s3 = false.
Proof.
  destruct (switch_visits_body_inside_switch (visit 8) (ID "x" 1)
              switch_items_well_formed 1 1 "main." init_state init_state
              (state_of
                 (visit 8
                    (If (BinaryOp "==" (ID "x" 1) (int_const "1" 2) 2)
                        (Compound (Some [assign "a" (int_const "1" 2) 2]) 2)
                        (Some (If (BinaryOp "==" (ID "x" 1) (int_const "2" 3) 3)
                                  (Compound (Some [assign "a" (int_const "2" 3) 3]) 3)
                                  (Some (Compound (Some [assign "a" (int_const "3" 4) 4]) 4))
                                  3))
                        2)
                    "main.switch."
                    (set_inswitch true
                       (set_linemap [(1, "main.switch.")] init_state)))
                 init_state)
              (Var "x" (Some 1)) PyNone
              (If (BinaryOp "==" (ID "x" 1) (int_const "1" 2) 2)
                  (Compound (Some [assign "a" (int_const "1" 2) 2]) 2)
                  (Some (If (BinaryOp "==" (ID "x" 1) (int_const "2" 3) 3)
                            (Compound (Some [assign "a" (int_const "2" 3) 3]) 3)
                            (Some (Compound (Some [assign "a" (int_const "3" 4) 4]) 4))
                            3))
                  2)
              eq_refl eq_refl)
    as (s3 & Hv & Hsw & _).
  - vm_compute. reflexivity.
  - exists s3. split; [exact Hv | exact Hsw].
Defined.

Lemma convert_case_first_witness :
  exists st,
    convert (ID "x" 1)
      (Case (int_const "1" 2) [assign "a" (int_const "1" 2) 2] 2
       :: [Default [assign "a" (int_const "2" 3) 3] 3;
           Default [assign "a" (int_const "3" 4) 4] 4])
    = inr (Some st).
Proof.
  apply (convert_case_first (ID "x" 1) (int_const "1" 2)
           [assign "a" (int_const "1" 2) 2]
           [Default [assign "a" (int_const "2" 3) 3] 3;
            Default [assign "a" (int_const "3" 4) 4] 4] 2).
  reflexivity.
Defined.

Lemma switch_default_first_witness :
  visit_Switch (visit 5) (ID "x" 1)
    (Compound (Some (Default [assign "a" (int_const "2" 2) 2] 2
                     :: Case (int_const "1" 3) [assign "a" (int_const "1" 3) 3] 3
                     :: [])) 1)
    1 "main." init_state
  = Err (NotSupported "Switch statement" [] (Some 1)).
Proof.
  apply (switch_default_first_rejected (visit 5) (ID "x" 1)
           [assign "a" (int_const "2" 2) 2]
           (Case (int_const "1" 3) [assign "a" (int_const "1" 3) 3] 3) []
           2 1 1 "main." init_state (Var "x" (Some 1)) init_state).
  reflexivity.
Defined.

Lemma switch_leading_statement_witness :
  visit_Switch (visit 5) (ID "x" 1)
    (Compound (Some (assign "y" (int_const "0" 2) 2
                     :: [Case (int_const "1" 3) [assign "a" (int_const "1" 3) 3] 3])) 1)
    1 "main." init_state
  = Err (PyError "AttributeError").
Proof.
  apply (switch_leading_statement_error (visit 5) (ID "x" 1) "y" (int_const "0" 2) 2
           [Case (int_const "1" 3) [assign "a" (int_const "1" 3) 3] 3]
           1 1 "main." init_state (Var "x" (Some 1)) init_state).
  reflexivity.
Defined.

(** ** Compound statements *)

(** A statement of a block that builds to a call of a declared function
    is recorded as an update of the discard variable ["_"], after the
    effects of the statement itself; a statement that builds to anything
    but an operation (an assignment to a variable, a declaration, a
    [printf]) adds nothing of its own. *)
Theorem compound_records_bare_call
  (visit : visitor) (item : node) (ln : nat) (prefix : string)
  (s s1 : state) (res : val)
  (Hi : visit item prefix s = Ok res s1) :
  (forall args l, res = Op "FuncCall" args l ->
     exists s2,
       visit_Compound visit (Some [item]) ln prefix s = Ok PyNone s2
       /\ cur_exprs s2 = cur_exprs s1 ++ [("_", res)]
       /\ st_loc s2 = st_loc s1)
  /\ (is_Op res = false ->
      visit_Compound visit (Some [item]) ln prefix s
      = Ok PyNone (set_linemap (st_linemap s1 ++ [(ln, prefix)]) s1)).
Proof.
  unfold visit_Compound. simpl default. simpl forM.
  split.
  - intros args l ->. unfold addexpr, addlinemap. monad_unfold. rewrite Hi. simpl.
    eexists. split; [reflexivity|]. split; [|reflexivity].
    unfold cur_exprs at 1. unfold exprs_at at 1. simpl.
    by rewrite lookup_insert_eq.
  - intros Hop. unfold addlinemap. monad_unfold. rewrite Hi.
    destruct res; try discriminate Hop; reflexivity.
Qed.

Lemma compound_records_bare_call_witness :
  exists s2,
    visit_Compound (visit 6) (Some [FuncCall (ID "g" 2) None 2]) 1 "main." with_g_state
      = Ok PyNone s2
    /\ cur_exprs s2 = [("_", Op "FuncCall" [Var "g" (Some 2)] (Some 2))].
Proof.
  destruct (proj1 (compound_records_bare_call (visit 6) (FuncCall (ID "g" 2) None 2)
                     1 "main." with_g_state
                     (set_linemap [(2, "main.")] with_g_state)
                     (Op "FuncCall" [Var "g" (Some 2)] (Some 2)) eq_refl)
                  [Var "g" (Some 2)] (Some 2) eq_refl)
    as (s2 & Hv & Hex & _).
  exists s2. split; [exact Hv | exact Hex].
Defined.

(** ** Normalization of output formats *)

Lemma prefix_length (a b : string) :
  String.prefix a b = true -> String.length a <= String.length b.
Proof.
  revert a. induction b as [|c b IH]; intros a; destruct a as [|d a]; simpl;
    try lia; try discriminate.
  destruct (Ascii.ascii_dec d c); [|discriminate].
  intros H. apply IH in H. lia.
Qed.

Lemma replace_aux_cons (old new : string) (c : Ascii.ascii) (s : string) :
  replace_aux old new 0 (String c s)
  = if String.prefix old (String c s)
    then new +:+ replace_aux old new (String.length old - 1) s
    else String c (replace_aux old new 0 s).
Proof. reflexivity. Qed.

Lemma replace_aux_length (old new : string) :
  String.length new <= String.length old -> 1 <= String.length old ->
  forall s skip,
    String.length (replace_aux old new skip s) + Nat.min skip (String.length s)
    <= String.length s.
Proof.
  intros Hnew Hold. induction s as [|c s IH]; intros skip.
  - simpl. lia.
  - destruct skip as [|k].
    + rewrite replace_aux_cons.
      destruct (String.prefix old (String c s)) eqn:Hp.
      * apply prefix_length in Hp. simpl in Hp.
        rewrite string_length_app.
        pose proof (IH (String.length old - 1)). simpl. lia.
      * pose proof (IH 0). simpl. simpl in H. lia.
    + pose proof (IH k). simpl. lia.
Qed.

Lemma replace_length (old new s : string) :
  String.length new <= String.length old -> 1 <= String.length old ->
  String.length (replace old new s) <= String.length s.
Proof.
  intros Hnew Hold. pose proof (replace_aux_length old new Hnew Hold s 0).
  unfold replace. lia.
Qed.

Lemma replace_absent_char (p : Ascii.ascii) (old' new s : string) :
  has_char p s = false -> replace (String p old') new s = s.
Proof.
  unfold replace. induction s as [|c s IH]; intros Hs; [reflexivity|].
  simpl in Hs. apply orb_false_iff in Hs as [Hc Hs].
  rewrite replace_aux_cons.
  assert (Hp : String.prefix (String p old') (String c s) = false).
  { simpl. destruct (Ascii.ascii_dec p c) as [-> | _]; [|reflexivity].
    by rewrite Ascii.eqb_refl in Hc. }
  rewrite Hp, IH by exact Hs. reflexivity.
Qed.

(** The normalization of a format never makes it longer, and it leaves a
    format without any percent sign as it is. *)
Theorem normalize_format_shrinks (fmt : string) :
  String.length (normalize_format fmt) <= String.length fmt
  /\ (has_char (Ascii.ascii_of_nat 37) fmt = false -> normalize_format fmt = fmt).
Proof.
  unfold normalize_format. split.
  - pose proof (replace_length "%lf" "%f" fmt) as H1.
    pose proof (replace_length "%ld" "%d" (replace "%lf" "%f" fmt)) as H2.
    pose proof (replace_length "%lld" "%d"
                  (replace "%ld" "%d" (replace "%lf" "%f" fmt))) as H3.
    simpl in H1, H2, H3. lia.
  - intros H.
    pose proof (replace_absent_char (Ascii.ascii_of_nat 37) "lf" "%f" fmt H) as E1.
    pose proof (replace_absent_char (Ascii.ascii_of_nat 37) "ld" "%d" fmt H) as E2.
    pose proof (replace_absent_char (Ascii.ascii_of_nat 37) "lld" "%d" fmt H) as E3.
    change (replace "%lf" "%f" fmt = fmt) in E1.
    change (replace "%ld" "%d" fmt = fmt) in E2.
    change (replace "%lld" "%d" fmt = fmt) in E3.
    rewrite E1, E2. exact E3.
Qed.

Lemma normalize_format_shrinks_witness :
  normalize_format "hello\n" = "hello\n".
Proof.
  apply (proj2 (normalize_format_shrinks "hello\n")). reflexivity.
Defined.

(** ** Parameters and casts *)

(** In a parameter list (the flag [fncdef] set), a declaration without
    initializer registers nothing: it yields its declarator, with the
    canonical type name, and only the line map grows. *)
Lemma visit_plain_decl_param (fuel : nat) (n : string) (names : list string)
  (ln : nat) (prefix : string) (s : state) :
  st_fncdef s = true ->
  visit (3 + fuel) (plain_decl n names ln) prefix s
  = Ok (PyTuple [PyStr n; PyStr (canonical_type names); PyNone])
       (set_linemap (st_linemap s ++ [(ln, prefix)]) s).
Proof.
  intros Hf. simpl. unfold visit_Decl, visit_TypeDecl, visit_IdentifierType,
    visit_expr_opt, visit_opt, addlinemap.
  monad_unfold. simpl. rewrite Hf. reflexivity.
Qed.

(** The parameters of a function definition are collected in declaration
    order, each as its name with its canonical type name, after whatever
    was collected before; the visit touches nothing but the line map. *)
Lemma FuncDef_params_plain (fuel : nat) (ps : list (string * list string))
  (ln : nat) (prefix : string) (acc : list val) (s : state) :
  st_fncdef s = true ->
  FuncDef_params (visit (3 + fuel)) (map (fun p => plain_decl p.1 p.2 ln) ps)
    ln prefix acc s
  = Ok (acc ++ param_records ps)
       (set_linemap (st_linemap s ++ param_lines ps ln prefix) s).
Proof.
  intros Hf. revert acc s Hf.
  induction ps as [|[n names] ps IH]; intros acc s Hf.
  - simpl. unfold ret. rewrite !app_nil_r. by destruct s.
  - change (FuncDef_params (visit (3 + fuel))
              (map (fun p => plain_decl p.1 p.2 ln) ((n, names) :: ps))
              ln prefix acc s)
      with (bind (visit (3 + fuel) (plain_decl n names ln) prefix)
              (fun param =>
                 bind (addlinemap ln prefix)
                   (fun _ =>
                      if val_is_str param "void"
                      then FuncDef_params (visit (3 + fuel))
                             (map (fun p => plain_decl p.1 p.2 ln) ps) ln prefix acc
                      else
                        bind (match param with
                              | Var name _ => ret (PyTuple [PyStr name; PyStr "int"])
                              | _ => slice2 param
                              end)
                          (fun param =>
                             FuncDef_params (visit (3 + fuel))
                               (map (fun p => plain_decl p.1 p.2 ln) ps) ln prefix
                               (acc ++ [param])))) s).
    unfold bind. rewrite (visit_plain_decl_param fuel n names ln prefix s Hf).
    unfold addlinemap, modify, val_is_str, slice2, ret. cbv beta iota.
    simpl take.
    rewrite IH by exact Hf.
    simpl param_records. simpl param_lines. simpl st_linemap.
    rewrite <- !app_assoc. reflexivity.
Qed.

(** A function definition whose parameters are plain declarations is
    registered with its parameters in declaration order, each as its name
    with the canonical name of its type. *)
Theorem funcdef_registers_parameters_in_order
  (fuel : nat) (ps : list (string * list string)) (ty : node) (init : option node)
  (lf ld ln : nat) (prefix name : string) (rtype d : val) (s s1 : state)
  (Hty : visit (3 + fuel) ty prefix (set_fncdef true s)
         = Ok (PyTuple [PyStr name; rtype; d]) s1)
  (Hmode : st_fncdef s1 = true) :
  exists s2,
    FuncDef_header (visit (3 + fuel))
      (Decl (FuncDecl (Some (map (fun p => plain_decl p.1 p.2 ln) ps)) ty lf) init ld)
      ln prefix s
    = Ok (name, param_records ps, rtype) s2
    /\ st_fncs s2 = st_fncs s1 ++ [(name, param_records ps, rtype)]
    /\ st_fncdef s2 = false
    /\ st_types s2 = st_types s1.
Proof.
  unfold FuncDef_header.
  unfold bind at 1. unfold modify at 1.
  unfold bind at 1. rewrite Hty.
  unfold bind at 1. simpl unpack3. unfold ret at 1.
  unfold bind at 1. simpl as_str. unfold ret at 1.
  unfold bind at 1. simpl default.
  rewrite (FuncDef_params_plain fuel ps ln (prefix +:+ name +:+ ".") [] s1 Hmode).
  unfold addfnc. monad_unfold. simpl.
  eexists. split; [reflexivity|]. repeat split; reflexivity.
Qed.

Lemma funcdef_registers_parameters_witness :
  exists s2,
    FuncDef_header (visit 5)
      (Decl (FuncDecl (Some [plain_decl "a" ["int"] 1; plain_decl "x" ["double"] 1])
               (TypeDecl (Some "f") (IdentifierType ["int"] 1) 1) 1) None 1)
      1 EmptyString init_state
    = Ok ("f", [PyTuple [PyStr "a"; PyStr "int"]; PyTuple [PyStr "x"; PyStr "float"]],
          PyStr "int") s2
    /\ st_fncs s2
       = [("f", [PyTuple [PyStr "a"; PyStr "int"]; PyTuple [PyStr "x"; PyStr "float"]],
           PyStr "int")].
Proof.
  destruct (funcdef_registers_parameters_in_order 2
              [("a", ["int"]); ("x", ["double"])]
              (TypeDecl (Some "f") (IdentifierType ["int"] 1) 1) None 1 1 1
              EmptyString "f" (PyStr "int") PyNone init_state
              (set_fncdef true init_state) eq_refl eq_refl)
    as (s2 & Hh & Hf & _).
  exists s2. split; [exact Hh | exact Hf].
Defined.

(** A cast builds to [cast] over the constant of the canonical name of
    the target type and the operand, so that [(double) x] and [(float) x]
    build to the same operation; the cast itself schedules nothing. *)
Theorem cast_uses_canonical_type
  (fuel : nat) (names : list string) (tl : nat) (e : node) (ln : nat)
  (prefix : string) (s s1 : state) (v : val)
  (He : visit (3 + fuel) e prefix
          (set_linemap (st_linemap s ++ [(tl, prefix); (ln, prefix)]) s)
        = Ok v s1) :
  visit_Cast (visit (3 + fuel)) (type_name names tl) e ln prefix s
  = Ok (Op "cast" [Const (canonical_type names) None; v] (Some ln)) s1.
Proof.
  unfold visit_Cast, visit_expr. unfold bind at 1.
  assert (Ht : visit (3 + fuel) (type_name names tl) prefix s
               = Ok (PyStr (canonical_type names))
                    (set_linemap (st_linemap s ++ [(tl, prefix)]) s))
    by reflexivity.
  rewrite Ht.
  unfold bind at 1. unfold addlinemap at 1. unfold modify at 1.
  unfold bind at 1.
  replace (set_linemap
             (st_linemap (set_linemap (st_linemap s ++ [(tl, prefix)]) s)
              ++ [(ln, prefix)])
             (set_linemap (st_linemap s ++ [(tl, prefix)]) s))
    with (set_linemap (st_linemap s ++ [(tl, prefix); (ln, prefix)]) s)
    by (simpl; rewrite <- app_assoc; reflexivity).
  rewrite He. reflexivity.
Qed.

Lemma cast_uses_canonical_type_witness :
  visit_Cast (visit 5) (type_name ["double"] 2) (ID "x" 2) 2 "f." in_f_state
  = visit_Cast (visit 5) (type_name ["float"] 2) (ID "x" 2) 2 "f." in_f_state.
Proof.
  transitivity (Ok (Op "cast" [Const "float" None; Var "x" (Some 2)] (Some 2))
                  (set_linemap [(2, "f."); (2, "f.")] in_f_state)).
  - apply (cast_uses_canonical_type 2 ["double"] 2 (ID "x" 2) 2 "f." in_f_state
             (set_linemap [(2, "f."); (2, "f.")] in_f_state) (Var "x" (Some 2))
             eq_refl).
  - symmetry.
    apply (cast_uses_canonical_type 2 ["float"] 2 (ID "x" 2) 2 "f." in_f_state
             (set_linemap [(2, "f."); (2, "f.")] in_f_state) (Var "x" (Some 2))
             eq_refl).
Defined.

(** ** Function declarations *)

(** A prototype with one unnamed parameter ([int g(int);]) registers the
    function with that parameter under the name ["_"] and the canonical
    name of its type, records the type of ["_"] in the scope of the
    function, closes the scope again, creates no location, and yields the
    declarator of the function. *)
Theorem funcdecl_unnamed_parameter
  (fuel : nat) (names : list string) (pl : nat) (ty : node) (ln : nat)
  (prefix name : string) (rtype d : val) (s s1 : state)
  (Hty : visit (3 + fuel) ty prefix (set_fncdef true s)
         = Ok (PyTuple [PyStr name; rtype; d]) s1)
  (Hvoid : canonical_type names ≠ "void")
  (Hfree : st_types s1 !! (name, "_") = None) :
  exists s2,
    visit_FuncDecl (visit (3 + fuel)) (Some [type_name names pl]) ty ln prefix s
    = Ok (PyTuple [PyStr name; rtype; PyNone]) s2
    /\ st_fncs s2
       = st_fncs s1
         ++ [(name, [PyTuple [PyStr "_"; PyStr (canonical_type names)]], rtype)]
    /\ st_types s2 = <[(name, "_") := PyStr (canonical_type names)]> (st_types s1)
    /\ st_fnc s2 = EmptyString
    /\ st_fncdef s2 = false
    /\ st_nextloc s2 = st_nextloc s1
    /\ st_exprs s2 = st_exprs s1.
Proof.
  unfold visit_FuncDecl.
  unfold bind at 1. unfold modify at 1.
  unfold bind at 1. rewrite Hty.
  unfold bind at 1. simpl unpack3. unfold ret at 1.
  unfold bind at 1. simpl as_str. unfold ret at 1.
  unfold bind at 1. simpl default.
  assert (Hp : FuncDecl_params (visit (3 + fuel)) [type_name names pl] prefix [] s1
               = Ok [PyTuple [PyStr "_"; PyStr (canonical_type names)]]
                    (set_linemap (st_linemap s1 ++ [(pl, prefix)]) s1)).
  { change (FuncDecl_params (visit (3 + fuel)) [type_name names pl] prefix [] s1)
      with (bind (visit (3 + fuel) (type_name names pl) prefix)
              (fun param =>
                 if val_is_str param "void"
                 then FuncDecl_params (visit (3 + fuel)) [] prefix []
                 else
                   bind (match param with
                         | Var name _ => ret (PyTuple [PyStr name; PyStr "int"])
                         | PyStr _ => ret (PyTuple [PyStr "_"; param])
                         | _ => slice2 param
                         end)
                     (fun param =>
                        FuncDecl_params (visit (3 + fuel)) [] prefix ([] ++ [param])))
              s1).
    unfold bind at 1.
    change (visit (3 + fuel) (type_name names pl) prefix s1)
      with (Ok (A:=val) (PyStr (canonical_type names))
              (set_linemap (st_linemap s1 ++ [(pl, prefix)]) s1)).
    cbv iota beta. unfold val_is_str.
    apply String.eqb_neq in Hvoid. rewrite Hvoid. reflexivity. }
  rewrite Hp.
  assert (Ht : forall s0, st_types s0 = st_types s1 -> st_fnc s0 = name ->
    addtypes [PyTuple [PyStr "_"; PyStr (canonical_type names)]] s0
    = Ok tt (set_types (<[(name, "_") := PyStr (canonical_type names)]> (st_types s0)) s0)).
  { intros s0 Ht0 Hn0.
    unfold addtypes, forM, bind, unpack2, as_str, ret, addtype. cbv beta iota.
    rewrite Hn0, Ht0, Hfree. reflexivity. }
  unfold addfnc, endfnc, addlinemap, bind, modify, ret.
  rewrite Ht by reflexivity.
  eexists. split; [reflexivity|]. repeat split; reflexivity.
Qed.

Lemma funcdecl_unnamed_parameter_witness :
  exists s2,
    visit_FuncDecl (visit 5) (Some [type_name ["long"; "int"] 1])
      (TypeDecl (Some "g") (IdentifierType ["int"] 1) 1) 1 EmptyString init_state
    = Ok (PyTuple [PyStr "g"; PyStr "int"; PyNone]) s2
    /\ st_fncs s2 = [("g", [PyTuple [PyStr "_"; PyStr "int"]], PyStr "int")].
Proof.
  destruct (funcdecl_unnamed_parameter 2 ["long"; "int"] 1
              (TypeDecl (Some "g") (IdentifierType ["int"] 1) 1) 1
              EmptyString "g" (PyStr "int") PyNone init_state
              (set_fncdef true init_state) eq_refl)
    as (s2 & Hv & Hf & _).
  - discriminate.
  - reflexivity.
  - exists s2. split; [exact Hv | exact Hf].
Defined.

Lemma identifier_type_is_canonical_witness :
  exists t,
    visit_IdentifierType ["short"; "int"] init_state = Ok (PyStr t) init_state
    /\ t = "short_int".
Proof.
  destruct (identifier_type_is_canonical ["short"; "int"] init_state)
    as (t & Hv & _ & Hsame).
  exists t. split; [exact Hv|]. apply Hsame. reflexivity.
Defined.

(** * Where the visitor misses what it sets out to do *)

(** ** Ternaries that leave updates behind *)

(** C1 on the code.  The snapshot of [visit_TernaryOp] is taken after the
    condition was built and counts the updates of the current location
    only.  In [k++ ? i++ : 0] the branch's update is rolled back, but the
    update of [k] scheduled while the condition was first built stays, and
    the conditional builds the condition again: [k := k + 1] is scheduled
    twice.  In [c ? (d ? i++ : 0) : 1] the nested ternary is split, which
    moves the current location to a fresh one; the outer count test then
    sees no new update, and the outer ternary is the pure value
    [Op('ite', c, None, 1)] although its then-branch scheduled
    [i := i + 1], which stays at location 2 with the transitions of the
    nested split. *)
Theorem ternary_leaves_updates_behind :
  (exists s',
      visit 8 ternary_cond_effect "f." in_f_state = Ok PyNone s'
      /\ exprs_at 1%positive s' = [upd_post_k; upd_post_k]
      /\ exprs_at 2%positive s' = [upd_post_i])
  /\ (exists s',
      visit 8 ternary_nested_effect "f." in_f_state
        = Ok (Op "ite" [Var "c" (Some 2); PyNone; Const "1" (Some 2)] (Some 2)) s'
      /\ exprs_at 2%positive s' = [upd_post_i]
      /\ st_loc s' = 4%positive
      /\ st_trans s'
         = [(1%positive, GCond (Var "d" (Some 2)), 2%positive);
            (1%positive, GNotCond (Var "d" (Some 2)), 3%positive);
            (2%positive, GTrue, 4%positive);
            (3%positive, GTrue, 4%positive)]).
Proof.
  split; vm_compute; eexists; repeat split; reflexivity.
Qed.

(** ** Assignments pushed ahead of a prefix update *)

(** C2 on the code.  In [x = i++ + ++j;] the right-hand side counts one
    postfix operation, and the update of [x] is pushed ahead of the last
    scheduled update, which is the prefix increment of [j] and not the
    postfix increment of [i]: the updates are [i := i + 1], then
    [x := i + j], then [j := j + 1], so the update of [x] comes after the
    postfix update it should precede and before the prefix update it
    should follow. *)
Theorem assignment_pushed_ahead_of_prefix_update :
  exists s',
    visit 6 assign_post_plus_pre "f." in_f_state = Ok (Var "x" (Some 2)) s'
    /\ cur_exprs s' = [upd_post_i; upd_assign_x; upd_pre_j]
    /\ scheduled_before (cur_exprs s') upd_post_i upd_assign_x
    /\ scheduled_before (cur_exprs s') upd_assign_x upd_pre_j.
Proof.
  eexists. split; [vm_compute; reflexivity|].
  split; [reflexivity|].
  split.
  - exists 0, 1. split; [reflexivity|]. split; [reflexivity | lia].
  - exists 1, 2. split; [reflexivity|]. split; [reflexivity | lia].
Qed.

(** ** Calls that lose arguments *)

(** C5 on the code.  The arguments of a call are built by
    [visit_ExprList], which pairs them with the characters of the scope
    prefix.  In a function [f] the prefix is ["f."], so of the three
    arguments of [printf("%ld %ld\n", x, y)] only the format and [x] are
    built: the single update appends [StrFormat("%d %d\n", x)], without
    [y]. *)
Theorem printf_call_drops_arguments :
  exists s',
    visit 6 printf_two_values "f." in_f_state = Ok PyNone s'
    /\ cur_exprs s'
       = [(VAR_OUT,
           Op "StrAppend"
             [Var VAR_OUT None;
              Op "StrFormat" [Const "%d %d\n" (Some 2); Var "x" (Some 2)] (Some 2)]
             (Some 2))].
Proof. vm_compute. eexists; split; reflexivity. Qed.

(** C6 on the code.  For the same reason [scanf("%d %d", &x, &y)] in a
    function [f] reaches [visit_scanf] with the format and [&x] only: one
    head-pop/tail-advance pair is scheduled, for [x], and the two
    specifiers against one argument are reported as a mismatch; nothing
    is scheduled for [y]. *)
Theorem scanf_call_drops_arguments :
  exists s',
    visit 6 scanf_two_values "f." in_f_state = Ok PyNone s'
    /\ cur_exprs s'
       = [("x", Op "ListHead" [Const "int" None; Var VAR_IN None] (Some 2));
          tail_advance 2]
    /\ st_warns s'
       = [("Mismatch between format and number of argument(s)of 'scanf' at line %s.",
           Some 2)].
Proof. vm_compute. eexists; repeat split; reflexivity. Qed.

(** In [main] the prefix ["main."] has five characters and the three
    arguments all arrive: both pairs are scheduled. *)
Lemma scanf_call_in_main_example :
  exists s',
    visit 6 scanf_two_values "main." in_f_state = Ok PyNone s'
    /\ cur_exprs s'
       = [("x", Op "ListHead" [Const "int" None; Var VAR_IN None] (Some 2));
          tail_advance 2;
          ("y", Op "ListHead" [Const "int" None; Var VAR_IN None] (Some 2));
          tail_advance 2]
    /\ st_warns s' = [].
Proof. vm_compute. eexists; repeat split; reflexivity. Qed.

(** ** A dropped declaration keeps what its initializer scheduled *)

(** [int x = i++;] after [int x;]: the declaration is dropped with the
    warning, no update of [x] is scheduled and the registry keeps the
    first type of [x], but the increment scheduled while the initializer
    was built stays. *)
Lemma duplicate_declaration_initializer_example :
  exists s',
    visit 6 decl_x_init_effect EmptyString after_global_x = Ok PyNone s'
    /\ cur_exprs s' = [upd_post_i]
    /\ st_types s' = st_types after_global_x
    /\ st_warns s' = [("Ignored global definition '%s' on line %s.", Some 2)].
Proof. vm_compute. eexists; repeat split; reflexivity. Qed.
